(** * pdf-renamer: a shallow embedding of [pdf_renamer/renamer.py]

    The development follows the layout of the Python module:
    - the Python values the code manipulates ([str] as code points, the
      JSON values returned by [json.loads], POSIX [Path]s);
    - the collaborators the module calls but does not define (the chat
      model, the PDF loader, [json.loads], [date.fromisoformat],
      [date.strftime], [os.replace]) gathered in the class [Collaborators];
    - a state-and-exception monad [M] carrying the directory listing, the
      log and the number of model calls made so far;
    - the methods of [Renamer] and the function [run], in source order;
    - the properties of the specification, stated over these definitions. *)

From stdpp Require Import base decidable option list gmap strings.
From Stdlib Require Import NArith ZArith DecimalString DecimalN Lia.

Set Default Proof Using "Type".
#[local] Set Warnings "-register-all".
#[local] Open Scope N_scope.

(** ** Python strings *)

(** A Python [str] is a sequence of Unicode code points. *)
Abbreviation str := (list N).

(** An ASCII literal as a [str]. *)
Definition py (s : string) : str :=
  (λ a, Ascii.N_of_ascii a) <$> String.list_ascii_of_string s.
Arguments py : simpl never.

Definition underscore : N := 95.
Definition hyphen : N := 45.
Definition slash : N := 47.
Definition dot : N := 46.

(** [str.isspace] for one code point: the table [_PyUnicode_IsWhitespace]
    of CPython, which [str.split()] and [str.strip()] consult. *)
Definition isspace (c : N) : bool :=
  ((9 <=? c) && (c <=? 13)) || ((28 <=? c) && (c <=? 32))
  || (c =? 133) || (c =? 160) || (c =? 5760)
  || ((8192 <=? c) && (c <=? 8202))
  || (c =? 8232) || (c =? 8233) || (c =? 8239) || (c =? 8287)
  || (c =? 12288).

Arguments isspace : simpl never.

(** The string begins, or ends, with a whitespace character. *)
Definition starts_ws (s : str) : bool :=
  match s with
  | c :: _ => isspace c
  | [] => false
  end.

Definition ends_ws (s : str) : bool := starts_ws (reverse s).

(** [s.lstrip()], [s.rstrip()], [s.strip()]. *)
Fixpoint lstrip (s : str) : str :=
  match s with
  | [] => []
  | c :: s' => if isspace c then lstrip s' else s
  end.

Definition rstrip (s : str) : str := reverse (lstrip (reverse s)).

Definition strip (s : str) : str := lstrip (rstrip s).

(** The split of [s] at the last occurrence of [sep], when there is one:
    the text before it and the text after it. *)
Fixpoint rpartition (sep : N) (s : str) : option (str * str) :=
  match s with
  | [] => None
  | c :: s' =>
      match rpartition sep s' with
      | Some (a, b) => Some (c :: a, b)
      | None => if c =? sep then Some ([], s') else None
      end
  end.

(** [s.rsplit(sep, 1)] for a one-character separator. *)
Definition rsplit1 (sep : N) (s : str) : list str :=
  match rpartition sep s with
  | Some (a, b) => [a; b]
  | None => [s]
  end.

(** [s.split(sep)] for a one-character separator. *)
Fixpoint split_on (sep : N) (s : str) : list str :=
  match s with
  | [] => [[]]
  | c :: s' =>
      if c =? sep then [] :: split_on sep s'
      else match split_on sep s' with
           | t :: ts => (c :: t) :: ts
           | [] => [[c]]
           end
  end.

(** [s.split()]: the maximal runs of non-whitespace characters. A
    character that is not whitespace starts a new word when whitespace (or
    nothing) follows it, and otherwise extends the word that follows. *)
Fixpoint split_ws (s : str) : list str :=
  match s with
  | [] => []
  | c :: s' =>
      if isspace c then split_ws s'
      else if starts_ws s' then [c] :: split_ws s'
      else match split_ws s' with
           | t :: ts => (c :: t) :: ts
           | [] => [[c]]
           end
  end.

(** [sep.join(l)]. *)
Fixpoint join (sep : str) (l : list str) : str :=
  match l with
  | [] => []
  | t :: ts =>
      match ts with
      | [] => t
      | _ :: _ => t ++ sep ++ join sep ts
      end
  end.

(** Truth value of a [str]: non-empty. *)
Definition str_truthy (s : str) : bool :=
  match s with [] => false | _ :: _ => true end.

(** ["-".join([w for w in s.split() if w])], the expression [rename]
    applies to the title and to the publisher. *)
Definition kebab (s : str) : str :=
  join [hyphen] (List.filter str_truthy (split_ws s)).

(** [needle in haystack] for two strings. *)
Fixpoint startswith (p s : str) : bool :=
  match p, s with
  | [], _ => true
  | _ :: _, [] => false
  | a :: p', b :: s' => (a =? b) && startswith p' s'
  end.

Fixpoint str_contains (needle haystack : str) : bool :=
  startswith needle haystack
  || match haystack with
     | [] => false
     | _ :: h' => str_contains needle h'
     end.

(** [str(n)] for a non-negative integer. *)
Definition str_of_N (n : N) : str := py (NilEmpty.string_of_uint (N.to_uint n)).


(** ** Values returned by [json.loads] *)

(** A Python [float]: finite ([m * 2^e]), infinite, or not a number. *)
Inductive pyfloat :=
| FFinite (m e : Z)
| FInf (negative : bool)
| FNaN.

(** The values [json.loads] can return ([Any] in the source), and [None]. *)
Inductive pyval :=
| PNone
| PBool (b : bool)
| PInt (z : Z)
| PFloat (f : pyfloat)
| PStr (s : str)
| PList (l : list pyval)
| PDict (d : gmap str pyval).

(** The exceptions that occur, all subclasses of [Exception]. *)
Inductive exn :=
| TypeError
| KeyError
| AttributeError
| ValueError
| JSONDecodeError
| StopIteration
| FileNotFoundError
| PermissionError
| OtherException (name : string).

(** How a call ends: it returns, it raises, or it never finishes. *)
Inductive outcome (A : Type) :=
| Ok (a : A)
| Raise (e : exn)
| Diverge.
Arguments Ok {A} a.
Arguments Raise {A} e.
Arguments Diverge {A}.

(** Truth value of an object, as [if x] and [x or y] take it. *)
Definition truthy (v : pyval) : bool :=
  match v with
  | PNone => false
  | PBool b => b
  | PInt z => negb (z =? 0)%Z
  | PFloat (FFinite m _) => negb (m =? 0)%Z
  | PFloat _ => true
  | PStr s => str_truthy s
  | PList l => match l with [] => false | _ :: _ => true end
  | PDict d => negb (bool_decide (d = ∅))
  end.

(** [x or y]. *)
Definition py_or (x y : pyval) : pyval := if truthy x then x else y.

(** [x is None]. *)
Definition is_None (v : pyval) : bool :=
  match v with PNone => true | _ => false end.

(** [key in container] for a [str] key: substring test on a [str],
    element test on a list, key test on a dict, [TypeError] on an object
    that is not iterable. *)
Definition py_contains (key : str) (container : pyval) : outcome bool :=
  match container with
  | PStr s => Ok (str_contains key s)
  | PList l =>
      Ok (existsb (λ v, match v with
                        | PStr s => bool_decide (s = key)
                        | _ => false
                        end) l)
  | PDict d => Ok (bool_decide (is_Some (d !! key)))
  | PNone | PBool _ | PInt _ | PFloat _ => Raise TypeError
  end.

(** [container[key]] for a [str] key: only a dict can be indexed by a
    string. *)
Definition py_getitem (container : pyval) (key : str) : outcome pyval :=
  match container with
  | PDict d =>
      match d !! key with
      | Some v => Ok v
      | None => Raise KeyError
      end
  | _ => Raise TypeError
  end.

(** ** [pathlib] paths (POSIX flavour) *)

(** A path is its root (empty, ["/"] or ["//"]) and its components. *)
Record Path := mkPath { root : str; parts : list str }.

Global Instance Path_eq_dec : EqDecision Path.
Proof. solve_decision. Defined.

(** The root of a path string: two leading slashes are kept apart, any
    other number of them is one ([posixpath.splitroot]). *)
Definition parse_root (s : str) : str :=
  match s with
  | a :: s1 =>
      if a =? slash then
        match s1 with
        | b :: s2 =>
            if b =? slash then
              match s2 with
              | c :: _ => if c =? slash then [slash] else [slash; slash]
              | [] => [slash; slash]
              end
            else [slash]
        | [] => [slash]
        end
      else []
  | [] => []
  end.

(** A component survives parsing when it is neither empty nor ["."]. *)
Definition keeps (x : str) : bool :=
  negb (bool_decide (x = [])) && negb (bool_decide (x = [dot])).

(** [Path(s)]. *)
Definition parse_path (s : str) : Path :=
  {| root := parse_root s; parts := List.filter keeps (split_on slash s) |}.

(** [p / q] for two paths: a rooted right operand replaces the left one. *)
Definition joinpath (p q : Path) : Path :=
  if str_truthy (root q) then q
  else {| root := root p; parts := parts p ++ parts q |}.

(** [p / s] for a path and a string. *)
Definition joinpath_str (p : Path) (s : str) : Path := joinpath p (parse_path s).

(** [p.name]: the last component, empty when there is none. *)
Definition name (p : Path) : str := List.last (parts p) [].

(** [p.parent]. *)
Definition parent (p : Path) : Path :=
  {| root := root p; parts := removelast (parts p) |}.

(** [p.suffix] and [p.stem]: the name is cut at its last dot unless that
    dot is its first or its last character. *)
Definition suffix (p : Path) : str :=
  match rpartition dot (name p) with
  | Some (a, b) => if str_truthy a && str_truthy b then dot :: b else []
  | None => []
  end.

Definition stem (p : Path) : str :=
  match rpartition dot (name p) with
  | Some (a, b) => if str_truthy a && str_truthy b then a else name p
  | None => name p
  end.

(** [s.endswith(suf)]. *)
Definition endswith (suf s : str) : bool :=
  startswith (reverse suf) (reverse s).

(** ** The world the program runs in *)

(** A calendar date, as [datetime.date] holds it. *)
Record date := mkDate { year : Z; month : Z; day : Z }.

(** The rendered prompts: which template, and the values of its
    variables. *)
Inductive prompt :=
| PublishDatePrompt (date_format text : str)
| PublisherPrompt (filename : str).

(** The calls of the module-level [logger], one constructor per call site,
    with the arguments of the format string. *)
Inductive log_record :=
| InfoStartingRename (in_path : Path)
| InfoFinishingRename (in_name : str) (renamed : Path)
| InfoInvokedModel (content : str)
| LogException (e : exn)
| InfoPublishDate (publish_date : str)
| ErrorDateFailed
| InfoPublisher (publisher : pyval)
| ErrorPublisherFailed
| InfoTitle (title : pyval)
| ErrorTitleFailed
| InfoSplitting (publisher title : str)
| ErrorNoOutputDir
| InfoFound (n : nat)
| InfoProcessing (count total : nat)
| InfoRenamed (n : nat).

(** The state the program reads and writes: the paths that exist (in
    directory order), the log written so far, and how many times the chat
    model was invoked. *)
Record world := mkWorld {
  listing : list Path;
  log : list log_record;
  calls : nat
}.

(** What the module calls and does not define. [chat_invoke] is the text
    of the message [ChatOllama(model).invoke] answers on its [n]-th call;
    [first_page] is [next(PyPDFLoader(path).lazy_load()).page_content];
    [json_loads] and [date_fromisoformat] give [None] where Python raises
    [JSONDecodeError] and [ValueError]; [os_replace] is the effect of
    [Path.replace] on the listing. *)
Class Collaborators := {
  chat_invoke : str → nat → prompt → outcome str;
  first_page : Path → outcome str;
  json_loads : str → option pyval;
  date_fromisoformat : str → option date;
  date_strftime : date → str → str;
  os_replace : list Path → Path → Path → outcome (list Path)
}.

(** ** The monad of effects *)

Definition M (A : Type) : Type := world → outcome A * world.

Definition ret {A} (a : A) : M A := λ w, (Ok a, w).

Definition raise {A} (e : exn) : M A := λ w, (Raise e, w).

Definition bind {A B} (c : M A) (k : A → M B) : M B :=
  λ w, match c w with
       | (Ok a, w') => k a w'
       | (Raise e, w') => (Raise e, w')
       | (Diverge, w') => (Diverge, w')
       end.

Notation "'let*' x ':=' c 'in' k" := (bind c (λ x, k))
  (at level 10, x pattern, c at level 100, k at level 200).
Notation "c ';;' k" := (bind c (λ _, k))
  (at level 100, k at level 200, right associativity).

(** A pure computation that may raise, run inside [M]. *)
Definition lift {A} (o : outcome A) : M A := λ w, (o, w).

(** [try: body / except Exception as e: handler(e) / else: orelse(a)]:
    only what [body] raises reaches the handler. *)
Definition try_except_else {A B} (body : M A) (handler : exn → M B)
    (orelse : A → M B) : M B :=
  λ w, match body w with
       | (Ok a, w') => orelse a w'
       | (Raise e, w') => handler e w'
       | (Diverge, w') => (Diverge, w')
       end.

Definition add_log (r : log_record) (w : world) : world :=
  {| listing := listing w; log := log w ++ [r]; calls := calls w |}.

Definition logger (r : log_record) : M () := λ w, (Ok (), add_log r w).

(** [p.exists()]. *)
Definition path_exists (p : Path) : M bool :=
  λ w, (Ok (bool_decide (p ∈ listing w)), w).

(** [d.glob("*.pdf")]: the entries of directory [d] whose name ends in
    [.pdf], in directory order. *)
Definition glob_pdf (d : Path) : M (list Path) :=
  λ w, (Ok (List.filter
              (λ p, bool_decide (parent p = d)
                    && bool_decide (parts p ≠ [])
                    && endswith (py ".pdf") (name p))
              (listing w)), w).

(** ** class [Renamer] *)

(** The fields [__init__] stores. The two prompt templates are constants
    of the class: [PublishDatePrompt] and [PublisherPrompt] above. *)
Record Renamer := mkRenamer {
  _model : str;
  _date_format : str;
  _out_path : Path
}.

Section Methods.
Context `{Collaborators}.

(** [self._model.invoke(prompt)], giving [message.content]. *)
Definition model_invoke (self : Renamer) (p : prompt) : M str :=
  λ w, (chat_invoke (_model self) (calls w) p,
        {| listing := listing w; log := log w; calls := S (calls w) |}).

(** [Renamer._invoke_model]: on [JSONDecodeError] the exception is logged
    and the method falls off its end, returning [None]. *)
Definition _invoke_model (self : Renamer) (p : prompt) : M pyval :=
  let* content := model_invoke self p in
  logger (InfoInvokedModel content);;
  match json_loads content with
  | None => logger (LogException JSONDecodeError);; ret PNone
  | Some answer => ret answer
  end.

(** [key in answer and answer[key]], as the [if] tests it. *)
Definition present_and_truthy (key : str) (answer : pyval) : M bool :=
  let* found := lift (py_contains key answer) in
  if found then
    let* v := lift (py_getitem answer key) in ret (truthy v)
  else ret false.

(** [date.fromisoformat(v)]: [TypeError] unless [v] is a [str]. *)
Definition fromisoformat (v : pyval) : outcome (option date) :=
  match v with
  | PStr s => Ok (date_fromisoformat s)
  | _ => Raise TypeError
  end.

(** [Renamer._extract_publish_date]. *)
Definition _extract_publish_date (self : Renamer) (text : str)
    : M (option str) :=
  let* answer :=
    _invoke_model self (PublishDatePrompt (py "YYYY-MM-DD") text) in
  let* cond := present_and_truthy (py "end_date") answer in
  if cond then
    let* v := lift (py_getitem answer (py "end_date")) in
    let* parsed := lift (fromisoformat v) in
    match parsed with
    | None => logger (LogException ValueError);; ret None
    | Some d =>
        let publish_date := date_strftime d (_date_format self) in
        logger (InfoPublishDate publish_date);;
        ret (Some publish_date)
    end
  else
    logger ErrorDateFailed;; ret None.

(** [Renamer._extract_publisher], returning [(title, publisher)]. *)
Definition _extract_publisher (self : Renamer) (filename : str)
    : M (pyval * pyval) :=
  let* answer := _invoke_model self (PublisherPrompt filename) in
  let* cond := present_and_truthy (py "publisher") answer in
  let* publisher :=
    if cond then
      let* v := lift (py_getitem answer (py "publisher")) in
      logger (InfoPublisher v);; ret v
    else logger ErrorPublisherFailed;; ret PNone in
  let* cond := present_and_truthy (py "title") answer in
  let* title :=
    if cond then
      let* v := lift (py_getitem answer (py "title")) in
      logger (InfoTitle v);; ret v
    else logger ErrorTitleFailed;; ret PNone in
  ret (title, publisher).

(** [Renamer._split_publisher_and_title], returning [(title, publisher)].
    The unpacking [title, publisher = parts] raises [ValueError] on a list
    that does not have two elements. *)
Definition _split_publisher_and_title (filename : str) : M (str * str) :=
  let parts := strip <$> rsplit1 underscore filename in
  let parts :=
    if (length parts =? 1)%nat then
      let parts := strip <$> rsplit1 hyphen filename in
      if (length parts =? 1)%nat then parts ++ [py "no-publisher"]
      else parts
    else parts in
  match parts with
  | [title; publisher] =>
      logger (InfoSplitting publisher title);;
      ret (title, publisher)
  | _ => raise ValueError
  end.

(** The two f-strings of [_make_unique_filename]. *)
Definition fstring_base (publish_date publisher title sfx : str) : str :=
  publish_date ++ [underscore] ++ publisher ++ [underscore] ++ title ++ sfx.

Definition fstring_count (publish_date publisher title : str) (count : N)
    (sfx : str) : str :=
  publish_date ++ [underscore] ++ publisher ++ [underscore] ++ title
  ++ [underscore] ++ str_of_N count ++ sfx.

(** The [while candidate.exists()] loop, run for at most [fuel] tests of
    the condition; [None] when the fuel does not suffice. *)
Fixpoint unique_loop (fuel : nat) (existing : list Path)
    (next : N → Path) (candidate : Path) (count : N) : option Path :=
  match fuel with
  | O => None
  | S fuel' =>
      if bool_decide (candidate ∈ existing) then
        unique_loop fuel' existing next (next count) (count + 1)
      else Some candidate
  end.

(** [Renamer._make_unique_filename]. The loop is given one test more than
    there are existing paths. *)
Definition _make_unique_filename (self : Renamer) (in_path : Path)
    (publish_date publisher title : str) : M Path :=
  λ w,
    let candidate :=
      joinpath_str (_out_path self)
        (fstring_base publish_date publisher title (suffix in_path)) in
    let next count :=
      joinpath_str (_out_path self)
        (fstring_count publish_date publisher title count (suffix in_path)) in
    match unique_loop (S (length (listing w))) (listing w) next candidate 1 with
    | Some c => (Ok c, w)
    | None => (Diverge, w)
    end.

(** Lines 168-172 of [rename]: the heuristic split is made only when a
    field is [None], and fills only what is falsy. *)
Definition fallback (title publisher : pyval) (stem_ : str)
    : M (pyval * pyval) :=
  if is_None title || is_None publisher then
    let* (h_title, h_publisher) := _split_publisher_and_title stem_ in
    ret (py_or title (PStr h_title), py_or publisher (PStr h_publisher))
  else ret (title, publisher).

(** ["-".join([w for w in v.split() if w])] on an object: only a [str] has
    a [split] method. *)
Definition kebab_case (v : pyval) : outcome str :=
  match v with
  | PStr s => Ok (kebab s)
  | _ => Raise AttributeError
  end.

(** [Renamer.rename]. *)
Definition rename (self : Renamer) (in_path : Path) : M Path :=
  logger (InfoStartingRename in_path);;
  let* page := lift (first_page in_path) in
  let* publish_date := _extract_publish_date self page in
  let publish_date := default (py "no-date") publish_date in
  let* (title, publisher) := _extract_publisher self (name in_path) in
  let* (title, publisher) := fallback title publisher (stem in_path) in
  let* title := lift (kebab_case title) in
  let* publisher := lift (kebab_case publisher) in
  let* renamed :=
    _make_unique_filename self in_path publish_date publisher title in
  logger (InfoFinishingRename (name in_path) renamed);;
  ret renamed.

(** ** function [run] *)

(** [file.replace(target)]. *)
Definition replace (file target : Path) : M () :=
  λ w, match os_replace (listing w) file target with
       | Ok l => (Ok (), {| listing := l; log := log w; calls := calls w |})
       | Raise e => (Raise e, w)
       | Diverge => (Diverge, w)
       end.

(** The body of the [for] loop of [run], for one file. The move is in the
    [else] branch of the [try] statement; [rename] never returns [None], so
    the test [renamed is not None] that guards the move always passes. *)
Definition process (renamer : Renamer) (output_dir : Path) (total : nat)
    (count : nat) (file : Path) : M () :=
  logger (InfoProcessing count total);;
  try_except_else (rename renamer file)
    (λ e, logger (LogException e))
    (λ renamed, replace file (joinpath output_dir renamed)).

(** [for count, file in enumerate(files, 1)]. *)
Fixpoint for_each (renamer : Renamer) (output_dir : Path) (total : nat)
    (count : nat) (files : list Path) : M () :=
  match files with
  | [] => ret ()
  | file :: rest =>
      process renamer output_dir total count file;;
      for_each renamer output_dir total (S count) rest
  end.

(** [run], returning the exit code. *)
Definition run (input_dir output_dir : Path) (model date_format : str)
    : M Z :=
  let* e := path_exists input_dir in
  if negb e then ret 0%Z else
  let* files := glob_pdf input_dir in
  if bool_decide (files = []) then ret 0%Z else
  let* e := path_exists output_dir in
  if negb e then logger ErrorNoOutputDir;; ret 1%Z else
  logger (InfoFound (length files));;
  let renamer := mkRenamer model date_format output_dir in
  for_each renamer output_dir (length files) 1%nat files;;
  logger (InfoRenamed (length files));;
  ret 0%Z.

End Methods.

(** * Definitions used in the statements *)

(** ** What the specification says, as definitions *)

(** No character of the string is whitespace. *)
Definition no_ws (s : str) : bool := forallb (λ c, negb (isspace c)) s.

(** The specification's reading of kebab-casing, character by character:
    leading whitespace is dropped; after that, a whitespace character that
    is followed by another one is dropped, one that is followed by a word
    becomes a hyphen, one that ends the string is dropped; every other
    character is copied. *)
Fixpoint collapse_runs (s : str) : str :=
  match s with
  | [] => []
  | c :: s' =>
      if isspace c then
        if starts_ws s' then collapse_runs s'
        else if str_truthy s' then hyphen :: collapse_runs s'
        else []
      else c :: collapse_runs s'
  end.

(** Kebab-casing as the specification describes it. *)
Definition kebab_spec (s : str) : str := collapse_runs (lstrip s).

(** A computation that leaves the directory listing as it found it. *)
Definition keeps_listing {A} (c : M A) : Prop :=
  ∀ w, listing (c w).2 = listing w.

(** The string neither begins nor ends with whitespace. *)
Definition trimmed (s : str) : bool := negb (starts_ws s) && negb (ends_ws s).

(** What one field of a reply object contributes to [_extract_publisher]:
    its value when the key is present and the value truthy, [None]
    otherwise. *)
Definition field_of (d : gmap str pyval) (key : str) : pyval :=
  match d !! key with
  | Some v => if truthy v then v else PNone
  | None => PNone
  end.

(** A computation that never hangs. *)
Definition never_diverges {A} (c : M A) : Prop := ∀ w, (c w).1 ≠ Diverge.

(** A computation that invokes the chat model at most [n] times. *)
Definition calls_within (n : nat) {A} (c : M A) : Prop :=
  ∀ w, (calls w ≤ calls (c w).2 ≤ calls w + n)%nat.

(** ** Sample collaborators *)

(** The text of a JSON object with string fields, and the value
    [json.loads] returns for it. *)
Definition quoted (s : str) : str := [34] ++ s ++ [34].

Definition json_field (kv : str * str) : str :=
  quoted kv.1 ++ py ": " ++ quoted kv.2.

Definition json_text (fields : list (str * str)) : str :=
  py "{" ++ join (py ", ") (json_field <$> fields) ++ py "}".

Definition json_value (fields : list (str * str)) : pyval :=
  PDict (list_to_map (prod_map id PStr <$> fields)).

(** The replies the sample models give. Any other text, such as
    [Sorry, I cannot help with that.], is not JSON. *)
Definition sample_objects : list (list (str * str)) :=
  [ [(py "end_date", py "2025-01-27"); (py "reasoning", py "date line")];
    [(py "end_date", [])];
    [(py "end_date", py "yesterday")];
    [(py "publisher", py "WIRED"); (py "title", py "Chinese AI App,  Rivals")];
    [(py "publisher", py "WIRED"); (py "title", [])];
    [(py "publisher", []); (py "title", py "Chinese AI App")];
    [(py "publisher", []); (py "title", [])] ].

Definition sample_json_loads (s : str) : option pyval :=
  json_value <$> List.find (λ o, bool_decide (json_text o = s)) sample_objects.

(** [date.fromisoformat] on the format [YYYY-MM-DD]. *)
Definition digit (c : N) : option Z :=
  if (48 <=? c) && (c <=? 57) then Some (Z.of_N c - 48)%Z else None.

Definition number (s : str) : option Z :=
  foldl (λ acc c, a ← acc; d ← digit c; Some (10 * a + d)%Z) (Some 0%Z) s.

Definition days_in_month (y m : Z) : Z :=
  if (m =? 2)%Z then
    if ((y mod 4 =? 0) && (negb (y mod 100 =? 0) || (y mod 400 =? 0)))%Z
    then 29%Z else 28%Z
  else if ((m =? 4) || (m =? 6) || (m =? 9) || (m =? 11))%Z then 30%Z
  else 31%Z.

Definition sample_fromisoformat (s : str) : option date :=
  match s with
  | [y1; y2; y3; y4; h1; m1; m2; h2; d1; d2] =>
      if (h1 =? hyphen) && (h2 =? hyphen) then
        y ← number [y1; y2; y3; y4];
        m ← number [m1; m2];
        d ← number [d1; d2];
        if ((1 <=? y) && (1 <=? m) && (m <=? 12) && (1 <=? d)
            && (d <=? days_in_month y m))%Z
        then Some (mkDate y m d) else None
      else None
  | _ => None
  end.

(** [date.strftime] for the directives [%Y], [%m] and [%d]. *)
Definition digits (width : nat) (z : Z) : str :=
  let s := str_of_N (Z.to_N z) in
  replicate (width - length s) 48 ++ s.

Fixpoint sample_strftime (d : date) (format : str) : str :=
  match format with
  | 37 :: 89 :: rest => digits 4 (year d) ++ sample_strftime d rest
  | 37 :: 109 :: rest => digits 2 (month d) ++ sample_strftime d rest
  | 37 :: 100 :: rest => digits 2 (day d) ++ sample_strftime d rest
  | c :: rest => c :: sample_strftime d rest
  | [] => []
  end.

(** [os.replace] on a listing: the source must exist, and so must the
    directory of the target; a target that exists is replaced. *)
Definition posix_replace (l : list Path) (src dst : Path)
    : outcome (list Path) :=
  if negb (bool_decide (src ∈ l)) then Raise FileNotFoundError
  else if bool_decide (parts (parent dst) ≠ [])
          && negb (bool_decide (parent dst ∈ l))
  then Raise FileNotFoundError
  else Ok (filter (λ p, p ≠ src ∧ p ≠ dst) l ++ [dst]).

(** [os.replace] into a directory that cannot be written. *)
Definition readonly_replace (l : list Path) (src dst : Path)
    : outcome (list Path) := Raise PermissionError.

(** [os.replace] where nothing stands in the way of a move. *)
Definition unhindered_replace (l : list Path) (src dst : Path)
    : outcome (list Path) :=
  Ok (filter (λ p, p ≠ src ∧ p ≠ dst) l ++ [dst]).

(** Collaborators whose model answers every prompt with the same object,
    given as the value [json.loads] returns for it. *)
Definition constant_reply (answer : pyval) : Collaborators :=
  {| chat_invoke := λ _ _ _, Ok (py "(one reply)");
     first_page := λ _, Ok (py "JAN 27, 2025 12:05 PM");
     json_loads := λ _, Some answer;
     date_fromisoformat := λ _, None;
     date_strftime := λ _ _, [];
     os_replace := unhindered_replace |}.

(** Collaborators with a model that answers [chat p] to prompt [p] and a
    loader that reads the same page from every file. *)
Definition sample (chat : prompt → str)
    (replace_ : list Path → Path → Path → outcome (list Path))
    : Collaborators :=
  {| chat_invoke := λ _ _ p, Ok (chat p);
     first_page := λ _, Ok (py "JAN 27, 2025 12:05 PM");
     json_loads := sample_json_loads;
     date_fromisoformat := sample_fromisoformat;
     date_strftime := sample_strftime;
     os_replace := replace_ |}.

(** A model that finds the date, the publisher and the title. *)
Definition chat_good (p : prompt) : str :=
  match p with
  | PublishDatePrompt _ _ =>
      json_text [(py "end_date", py "2025-01-27");
                 (py "reasoning", py "date line")]
  | PublisherPrompt _ =>
      json_text [(py "publisher", py "WIRED");
                 (py "title", py "Chinese AI App,  Rivals")]
  end.

(** A model that returns well-formed objects with empty fields. *)
Definition chat_empty (p : prompt) : str :=
  match p with
  | PublishDatePrompt _ _ => json_text [(py "end_date", [])]
  | PublisherPrompt _ => json_text [(py "publisher", []); (py "title", [])]
  end.

(** A model that finds the title and leaves the publisher empty. *)
Definition chat_title_only (p : prompt) : str :=
  match p with
  | PublishDatePrompt _ _ => json_text [(py "end_date", [])]
  | PublisherPrompt _ =>
      json_text [(py "publisher", []); (py "title", py "Chinese AI App")]
  end.

(** A model that finds the date and answers the second prompt in prose. *)
Definition chat_date_only (p : prompt) : str :=
  match p with
  | PublishDatePrompt _ _ =>
      json_text [(py "end_date", py "2025-01-27");
                 (py "reasoning", py "date line")]
  | PublisherPrompt _ => py "Sorry, I cannot help with that."
  end.

(** A model that does not answer in JSON. *)
Definition chat_prose (p : prompt) : str := py "Sorry, I cannot help with that.".

(** ** Sample worlds *)

(** A world with no file, an empty log and no model call made. *)
Definition w0 : world := mkWorld [] [] 0.

(** A renamer writing to [/out], a source file [/in/a.pdf], and a world
    where the base name and the name counted 1 are taken. *)
Definition out_abs : Path := mkPath [slash] [py "out"].
Definition in_a : Path := mkPath [slash] [py "in"; py "a.pdf"].
Definition renamer_abs : Renamer := mkRenamer (py "llama3.2") (py "%Y%m%d") out_abs.
Definition w_taken : world :=
  mkWorld [ mkPath [slash] [py "in"]; in_a; out_abs;
            mkPath [slash] [py "out"; py "no-date_WIRED_a.pdf"];
            mkPath [slash] [py "out"; py "no-date_WIRED_a_1.pdf"] ] [] 0.

(** A file named as the browser saves an article. *)
Definition in_wired : Path :=
  mkPath [slash] [py "in"; py "Chinese AI App, Rivals _ WIRED.pdf"].

(** A batch of two files, read from [/in], written to [/out]. *)
Definition in_dir : Path := mkPath [slash] [py "in"].
Definition in_b : Path := mkPath [slash] [py "in"; py "b.pdf"].
Definition w_batch : world := mkWorld [in_dir; in_a; in_b; out_abs] [] 0.

(** A batch run from the working directory: [run(Path("in"), Path("out"),
    ...)], where [out/out] exists and holds a file of the new name. *)
Definition in_rel : Path := mkPath [] [py "in"].
Definition in_rel_a : Path := mkPath [] [py "in"; py "a.pdf"].
Definition out_rel : Path := mkPath [] [py "out"].
Definition new_name : str := py "no-date_no-publisher_a.pdf".
Definition w_rel : world :=
  mkWorld [ in_rel; in_rel_a; out_rel; mkPath [] [py "out"; py "out"];
            mkPath [] [py "out"; py "out"; new_name] ] [] 0.

(** ** Tactics *)

(** Closes a decidable proposition about concrete data by evaluation. *)
Ltac by_evaluation := apply (bool_decide_unpack _); vm_compute; exact I.

(** * Properties *)

(** ** Strings: trimming and splitting at the last separator *)

Lemma lstrip_id s : starts_ws s = false → lstrip s = s.
Proof. destruct s as [|c s]; simpl; [done|]. by intros ->. Qed.

Lemma lstrip_blank s : forallb isspace s = true → lstrip s = [].
Proof.
  induction s as [|c s IH]; simpl; [done|].
  intros [-> Hs]%andb_prop. by apply IH.
Qed.

Lemma forallb_reverse (f : N → bool) s :
  forallb f (reverse s) = forallb f s.
Proof.
  induction s as [|c s IH]; [done|].
  rewrite reverse_cons, forallb_app, IH. simpl.
  rewrite andb_true_r. apply andb_comm.
Qed.

Lemma strip_blank s : forallb isspace s = true → strip s = [].
Proof.
  intros Hs. unfold strip, rstrip.
  rewrite (lstrip_blank (reverse s)) by (by rewrite forallb_reverse). done.
Qed.

Lemma strip_id s : starts_ws s = false → ends_ws s = false → strip s = s.
Proof.
  intros Hl Hr. unfold strip, rstrip.
  rewrite (lstrip_id (reverse s)) by done.
  rewrite reverse_involutive. by apply lstrip_id.
Qed.

Lemma rpartition_None sep s : sep ∉ s → rpartition sep s = None.
Proof.
  induction s as [|c s IH]; simpl; [done|].
  intros [Hc Hs]%not_elem_of_cons. rewrite (IH Hs).
  destruct (N.eqb_spec c sep); congruence.
Qed.

Lemma rpartition_last sep a b :
  sep ∉ b → rpartition sep (a ++ sep :: b) = Some (a, b).
Proof.
  intros Hb. induction a as [|c a IH]; simpl.
  - rewrite (rpartition_None _ _ Hb). by rewrite N.eqb_refl.
  - by rewrite IH.
Qed.



(** The heuristic split at a last underscore, and at a last hyphen when
    there is no underscore. *)
Lemma split_at_underscore a b w :
  underscore ∉ b →
  _split_publisher_and_title (a ++ underscore :: b) w =
  (Ok (strip a, strip b), add_log (InfoSplitting (strip b) (strip a)) w).
Proof.
  intros Hb. unfold _split_publisher_and_title, rsplit1.
  by rewrite (rpartition_last _ _ _ Hb).
Qed.

Lemma split_at_hyphen a b w :
  underscore ∉ a → underscore ∉ b → hyphen ∉ b →
  _split_publisher_and_title (a ++ hyphen :: b) w =
  (Ok (strip a, strip b), add_log (InfoSplitting (strip b) (strip a)) w).
Proof.
  intros Ha Hb Hh. unfold _split_publisher_and_title, rsplit1.
  rewrite (rpartition_None underscore).
  - by rewrite (rpartition_last _ _ _ Hh).
  - rewrite elem_of_app, elem_of_cons. intros [?|[?|?]]; done.
Qed.

Lemma split_no_separator s w :
  underscore ∉ s → hyphen ∉ s →
  _split_publisher_and_title s w =
  (Ok (strip s, py "no-publisher"),
   add_log (InfoSplitting (py "no-publisher") (strip s)) w).
Proof.
  intros Hu Hh. unfold _split_publisher_and_title, rsplit1.
  by rewrite (rpartition_None _ _ Hu), (rpartition_None _ _ Hh).
Qed.

(** ** Strings: kebab-casing *)

Lemma split_ws_tokens s :
  Forall (λ t, str_truthy t = true ∧ no_ws t = true) (split_ws s).
Proof.
  induction s as [|c s IH]; simpl; [constructor|].
  destruct (isspace c) eqn:Hc; [done|].
  assert (Hone : str_truthy [c] = true ∧ no_ws [c] = true).
  { split; [done|]. unfold no_ws. simpl. by rewrite Hc. }
  destruct (starts_ws s); [by apply Forall_cons|].
  destruct (split_ws s) as [|t ts]; [by apply Forall_cons|].
  inversion IH as [|?? [_ Ht] Hts]; subst. apply Forall_cons; split; [|done].
  split; [done|]. unfold no_ws in *. simpl. by rewrite Hc, Ht.
Qed.

Lemma filter_split_ws s : List.filter str_truthy (split_ws s) = split_ws s.
Proof.
  pose proof (split_ws_tokens s) as H.
  induction H as [|t ts [Ht _] _ IH]; simpl; [done|].
  by rewrite Ht, IH.
Qed.

Lemma kebab_join s : kebab s = join [hyphen] (split_ws s).
Proof. unfold kebab. by rewrite filter_split_ws. Qed.

Lemma no_ws_starts s : no_ws s = true → starts_ws s = false.
Proof.
  destruct s as [|c s]; [done|]. unfold no_ws. simpl.
  intros [Hc _]%andb_prop. by apply negb_true_iff.
Qed.

Lemma split_ws_word s :
  no_ws s = true → split_ws s = if str_truthy s then [s] else [].
Proof.
  induction s as [|c s IH]; [done|].
  intros Hcs. assert (Hs : no_ws s = true).
  { unfold no_ws in *. simpl in Hcs. by apply andb_prop in Hcs as [_ ?]. }
  apply no_ws_starts in Hcs. simpl in *.
  rewrite Hcs, (no_ws_starts _ Hs), (IH Hs). by destruct s.
Qed.

Lemma no_ws_app s t : no_ws (s ++ t) = no_ws s && no_ws t.
Proof. apply forallb_app. Qed.

Lemma join_no_ws l :
  Forall (λ t, no_ws t = true) l → no_ws (join [hyphen] l) = true.
Proof.
  induction 1 as [|t ts Ht _ IH]; [done|].
  destruct ts as [|t' ts]; [done|].
  change (join [hyphen] (t :: t' :: ts))
    with (t ++ [hyphen] ++ join [hyphen] (t' :: ts)).
  by rewrite !no_ws_app, Ht, IH.
Qed.

Lemma kebab_no_ws s : no_ws (kebab s) = true.
Proof.
  rewrite kebab_join. apply join_no_ws.
  eapply Forall_impl; [apply split_ws_tokens|]. by intros ? [_ ?].
Qed.

Lemma kebab_word s : no_ws s = true → kebab s = s.
Proof.
  intros Hs. rewrite kebab_join, (split_ws_word _ Hs). by destruct s.
Qed.

Lemma split_ws_starts s :
  starts_ws s = false → str_truthy s = true → split_ws s ≠ [].
Proof.
  destruct s as [|c s]; [done|]. simpl. intros -> _.
  destruct (starts_ws s); [done|]. by destruct (split_ws s).
Qed.

(** What [collapse_runs] gives on a string that need not be trimmed on the
    left: the joined words, after a hyphen when the string begins with
    whitespace and has a word. *)
Lemma collapse_runs_join s :
  collapse_runs s =
  if starts_ws s && bool_decide (split_ws s ≠ [])
  then hyphen :: join [hyphen] (split_ws s)
  else join [hyphen] (split_ws s).
Proof.
  induction s as [|c s IH]; [done|].
  cbn [collapse_runs split_ws starts_ws].
  destruct (isspace c) eqn:Hc.
  - rewrite IH. destruct (starts_ws s) eqn:Hs; [done|].
    destruct (str_truthy s) eqn:Ht.
    + by rewrite bool_decide_eq_true_2 by by apply split_ws_starts.
    + by destruct s.
  - rewrite IH. simpl. destruct (starts_ws s) eqn:Hs; simpl.
    + destruct (split_ws s) as [|t ts] eqn:E; [done|].
      by rewrite bool_decide_eq_true_2.
    + destruct (split_ws s) as [|t ts] eqn:E; [done|]. by destruct ts.
Qed.

Lemma split_ws_lstrip s : split_ws (lstrip s) = split_ws s.
Proof.
  induction s as [|c s IH]; [done|].
  simpl. destruct (isspace c) eqn:Hc; [done|]. simpl. by rewrite Hc.
Qed.

Lemma starts_ws_lstrip s : starts_ws (lstrip s) = false.
Proof.
  induction s as [|c s IH]; [done|].
  simpl. destruct (isspace c) eqn:Hc; [done|]. simpl. by rewrite Hc.
Qed.

Lemma kebab_refines_spec s : kebab s = kebab_spec s.
Proof.
  unfold kebab_spec. rewrite collapse_runs_join, starts_ws_lstrip.
  simpl. by rewrite split_ws_lstrip, kebab_join.
Qed.

(** The words of [s.split()], put end to end, are the characters of [s]
    that are not whitespace, in their order. *)
Lemma concat_split_ws s :
  concat (split_ws s) = List.filter (λ c, negb (isspace c)) s.
Proof.
  induction s as [|c s IH]; [done|].
  cbn [split_ws List.filter]. destruct (isspace c) eqn:Hc; simpl; [done|].
  rewrite <- IH. destruct (starts_ws s); [done|].
  by destruct (split_ws s).
Qed.

(** ** The heuristic splitter *)



Example split_wired :
  (_split_publisher_and_title (py "Rivals - x _ WIRED") w0).1
  = Ok (py "Rivals - x", py "WIRED").
Proof. reflexivity. Qed.

(** C6, as the code has it. For a stem with neither underscore nor hyphen
    the publisher is the sentinel ["no-publisher"] and the title is the stem
    trimmed of leading and trailing whitespace; it is the stem itself when
    the stem neither begins nor ends with whitespace. *)
Theorem C6_no_separator (stem_ : str) (w : world) :
  underscore ∉ stem_ → hyphen ∉ stem_ →
  (_split_publisher_and_title stem_ w).1
    = Ok (strip stem_, py "no-publisher")
  ∧ (starts_ws stem_ = false → ends_ws stem_ = false →
     (_split_publisher_and_title stem_ w).1 = Ok (stem_, py "no-publisher")).
Proof.
  intros Hu Hh. rewrite (split_no_separator _ _ Hu Hh). split; [done|].
  intros Hl Hr. simpl. by rewrite strip_id.
Qed.

Lemma C6_witness :
  (_split_publisher_and_title (py "annual report") w0).1
    = Ok (py "annual report", py "no-publisher").
Proof.
  apply (C6_no_separator (py "annual report") w0); by_evaluation.
Defined.

(** C6 as stated fails: the stem [" a"] has no separator, and its title is
    ["a"], not the stem unchanged. *)
Lemma C6_counterexample :
  (underscore ∉ py " a") ∧ (hyphen ∉ py " a")
  ∧ (_split_publisher_and_title (py " a") w0).1
    = Ok (py "a", py "no-publisher")
  ∧ (_split_publisher_and_title (py " a") w0).1
    ≠ Ok (py " a", py "no-publisher").
Proof. repeat split; try by_evaluation. by vm_compute. Qed.

(** C10. When a separator is present (an underscore, or a hyphen in a stem
    without underscore), the fields are the trimmed texts around its last
    occurrence, whatever they are: a blank text after it gives the empty
    publisher, a blank text before it the empty title, and the sentinel is
    not substituted. The empty field stays empty under kebab-casing, and in
    the file name it leaves two underscores in a row, or an underscore
    before the extension. *)
Theorem C10_empty_field_not_sentinel (a b : str) (sep : N) (w : world) :
  sep = underscore ∨ (sep = hyphen ∧ underscore ∉ a ++ b) → sep ∉ b →
  (_split_publisher_and_title (a ++ sep :: b) w).1 = Ok (strip a, strip b)
  ∧ (forallb isspace b = true →
     (_split_publisher_and_title (a ++ sep :: b) w).1 = Ok (strip a, [])
     ∧ [] ≠ py "no-publisher")
  ∧ (forallb isspace a = true →
     (_split_publisher_and_title (a ++ sep :: b) w).1 = Ok ([], strip b))
  ∧ kebab [] = []
  ∧ (∀ d t sfx,
       fstring_base d [] t sfx = d ++ [underscore; underscore] ++ t ++ sfx)
  ∧ (∀ d p sfx,
       fstring_base d p [] sfx = d ++ [underscore] ++ p ++ [underscore] ++ sfx).
Proof.
  intros Hsep Hb.
  assert (E : (_split_publisher_and_title (a ++ sep :: b) w).1
              = Ok (strip a, strip b)).
  { destruct Hsep as [->|[-> Hu]].
    - by rewrite split_at_underscore.
    - rewrite not_elem_of_app in Hu. destruct Hu.
      by rewrite split_at_hyphen. }
  rewrite E. split; [done|]. split; [|split; [|done]].
  - intros Hblank. by rewrite (strip_blank _ Hblank).
  - intros Hblank. by rewrite (strip_blank _ Hblank).
Qed.

Lemma C10_witness :
  (_split_publisher_and_title (py "abc_ ") w0).1 = Ok (py "abc", [])
  ∧ (_split_publisher_and_title (py " -abc") w0).1 = Ok ([], py "abc").
Proof.
  split.
  - apply (C10_empty_field_not_sentinel (py "abc") (py " ") underscore w0);
      [by left | by_evaluation | reflexivity].
  - apply (C10_empty_field_not_sentinel (py " ") (py "abc") hyphen w0);
      [right; split; [done | by_evaluation] | by_evaluation | reflexivity].
Defined.

(** ** Kebab-casing *)

(** The ideographic space U+3000, a tab and a line feed separate words;
    the comma is kept. *)
Example kebab_unicode :
  kebab ([22799; 12288; 33258] ++ py " x," ++ [9; 10] ++ py "y ")
  = [22799; hyphen; 33258; hyphen] ++ py "x,-y".
Proof. reflexivity. Qed.

(** C8. Kebab-casing is idempotent; it leaves a string without whitespace
    as it is; it is the character-wise collapse of the specification
    ([kebab_spec]: each whitespace run between two words becomes one hyphen,
    leading and trailing whitespace goes, every other character is copied);
    its words are joined by single hyphens and, put end to end, are the
    non-whitespace characters of the input in their order. *)
Theorem C8_kebab (s : str) :
  kebab (kebab s) = kebab s
  ∧ (no_ws s = true → kebab s = s)
  ∧ kebab s = kebab_spec s
  ∧ kebab s = join [hyphen] (split_ws s)
  ∧ concat (split_ws s) = List.filter (λ c, negb (isspace c)) s
  ∧ no_ws (kebab s) = true.
Proof.
  repeat split.
  - apply kebab_word, kebab_no_ws.
  - apply kebab_word.
  - apply kebab_refines_spec.
  - apply kebab_join.
  - apply concat_split_ws.
  - apply kebab_no_ws.
Qed.

Lemma C8_witness :
  no_ws (py "Rivals,(2025)") = true
  ∧ kebab (py "Rivals,(2025)") = py "Rivals,(2025)".
Proof.
  split; [reflexivity|].
  exact (proj1 (proj2 (C8_kebab (py "Rivals,(2025)"))) eq_refl).
Defined.

(** ** The filename builder: the loop *)

Section UniqueLoop.
Variable existing : list Path.
Variable next : N → Path.
Hypothesis next_inj : ∀ j k, next j = next k → j = k.

(** The loop only returns a candidate that does not exist. *)
Lemma unique_loop_fresh fuel candidate count c :
  unique_loop fuel existing next candidate count = Some c → c ∉ existing.
Proof using Type.
  revert candidate count.
  induction fuel as [|fuel IH]; intros candidate count; simpl; [done|].
  case_bool_decide as Hin; [apply IH|]. by intros [= <-].
Qed.

(** The loop finishes whenever the fuel exceeds the length of a list that
    holds every existing path among the candidates still to be tried. *)
Lemma unique_loop_finishes fuel (l : list Path) candidate count :
  (length l < fuel)%nat →
  (∀ k, count ≤ k → candidate ≠ next k) →
  (candidate ∈ existing → candidate ∈ l) →
  (∀ k, count ≤ k → next k ∈ existing → next k ∈ l) →
  is_Some (unique_loop fuel existing next candidate count).
Proof using next_inj.
  revert l candidate count.
  induction fuel as [|fuel IH]; intros l candidate count Hlen Hne Hc Hn;
    [lia|].
  simpl. case_bool_decide as Hin; [|done].
  apply (IH (filter (λ p, p ≠ candidate) l)).
  - apply Nat.lt_le_trans with (length l); [|lia].
    apply (length_filter_lt _ l candidate); [by apply Hc|]. by intros ?.
  - intros k Hk E. apply next_inj in E. lia.
  - intros Hex. apply list_elem_of_filter. split.
    + intros E. by apply (Hne count).
    + apply Hn; [lia|done].
  - intros k Hk Hex. apply list_elem_of_filter. split.
    + intros E. apply (Hne k); [lia|done].
    + apply Hn; [lia|done].
Qed.


End UniqueLoop.

(** ** The filename builder: the candidates are pairwise distinct *)

Lemma split_on_nonempty sep s : split_on sep s ≠ [].
Proof.
  destruct s as [|c s]; simpl; [done|].
  destruct (c =? sep); [done|]. by destruct (split_on sep s).
Qed.

Lemma split_on_word sep m : sep ∉ m → split_on sep m = [m].
Proof.
  induction m as [|c m IH]; simpl; [done|].
  intros [Hc Hm]%not_elem_of_cons. rewrite (IH Hm).
  destruct (N.eqb_spec c sep); congruence.
Qed.

(** Splitting a concatenation: the last piece of the left part and the
    first piece of the right part are glued. *)
Lemma split_on_app sep u v U ul vh V :
  split_on sep u = U ++ [ul] → split_on sep v = vh :: V →
  split_on sep (u ++ v) = U ++ (ul ++ vh) :: V.
Proof.
  intros Hu Hv. revert U ul Hu.
  induction u as [|c u IH]; intros U ul Hu; simpl in *.
  - destruct U as [|? [|]]; simplify_eq/=. done.
  - destruct (c =? sep).
    + destruct U as [|x U]; simplify_eq/=.
      * by destruct (split_on_nonempty sep u).
      * by rewrite (IH U ul).
    + destruct (split_on sep u) as [|t ts] eqn:E;
        [by destruct (split_on_nonempty sep u)|].
      destruct U as [|x U]; simplify_eq/=.
      * by rewrite (IH [] t).
      * by rewrite (IH (t :: U) ul).
Qed.

(** The pieces of [A ++ m ++ B] when [m] has no separator: [m] sits in one
    piece, and the other pieces do not depend on [m]. *)
Lemma split_on_middle sep A B :
  ∃ U al bh V, ∀ m, sep ∉ m →
    split_on sep (A ++ m ++ B) = U ++ (al ++ m ++ bh) :: V.
Proof.
  destruct (split_on sep A) as [|x xs] eqn:EA using rev_ind;
    [by destruct (split_on_nonempty sep A)|].
  clear IHxs. destruct (split_on sep B) as [|bh V] eqn:EB;
    [by destruct (split_on_nonempty sep B)|].
  exists xs, x, bh, V. intros m Hm.
  apply split_on_app; [done|].
  apply (split_on_app sep m B [] m bh V); [|done].
  by apply split_on_word.
Qed.

Lemma keeps_underscore x : underscore ∈ x → keeps x = true.
Proof.
  intros Hin. unfold keeps.
  assert (x ≠ []) by (intros ->; by apply elem_of_nil in Hin).
  assert (x ≠ [dot]) by (intros ->; by apply list_elem_of_singleton in Hin).
  by rewrite !bool_decide_eq_false_2.
Qed.

Lemma parse_root_prefix d r r' :
  parse_root (d ++ underscore :: r) = parse_root (d ++ underscore :: r').
Proof.
  destruct d as [|a [|b [|c d]]]; simpl; repeat case_match; done.
Qed.

Lemma py_inj s s' : py s = py s' → s = s'.
Proof.
  unfold py. intros E.
  rewrite <- (String.string_of_list_ascii_of_string s),
          <- (String.string_of_list_ascii_of_string s').
  f_equal. revert E.
  generalize (String.list_ascii_of_string s) as l.
  generalize (String.list_ascii_of_string s') as l'.
  intros l' l. revert l'.
  induction l as [|a l IH]; intros [|a' l']; simpl; try done.
  intros [= Ha E]. f_equal; [|by apply IH].
  by rewrite <- (Ascii.ascii_N_embedding a), Ha, Ascii.ascii_N_embedding.
Qed.

Lemma str_of_N_inj j k : str_of_N j = str_of_N k → j = k.
Proof.
  unfold str_of_N. intros E%py_inj.
  assert (N.to_uint j = N.to_uint k) as E'.
  { apply (inj Some). by rewrite <- !NilEmpty.usu, E. }
  by rewrite <- (Unsigned.of_to j), E', Unsigned.of_to.
Qed.

Lemma str_of_uint_digits (d : Decimal.uint) :
  Forall (λ c, 48 ≤ c ≤ 57) (py (NilEmpty.string_of_uint d)).
Proof.
  induction d; simpl; try apply Forall_cons; try done;
    split; try done; by vm_compute.
Qed.

Lemma str_of_N_no_slash k : slash ∉ str_of_N k.
Proof.
  unfold str_of_N. intros Hin.
  pose proof (str_of_uint_digits (N.to_uint k)) as Hd.
  rewrite Forall_forall in Hd. apply Hd in Hin. unfold slash in Hin. lia.
Qed.


Lemma joinpath_parts_inj out q q' :
  root q = root q' → joinpath out q = joinpath out q' → parts q = parts q'.
Proof.
  unfold joinpath. intros <-. destruct (str_truthy (root q)).
  - by intros ->.
  - intros [= E]. by apply app_inv_head in E.
Qed.

Section Candidates.
Variables (out : Path) (d p t sfx : str).

Lemma fstring_base_middle :
  fstring_base d p t sfx
  = (d ++ [underscore] ++ p ++ [underscore] ++ t) ++ [] ++ sfx.
Proof. unfold fstring_base. by rewrite <- !(assoc_L (++)). Qed.

Lemma fstring_count_middle k :
  fstring_count d p t k sfx
  = (d ++ [underscore] ++ p ++ [underscore] ++ t)
    ++ (underscore :: str_of_N k) ++ sfx.
Proof. unfold fstring_count. by rewrite <- !(assoc_L (++)). Qed.

(** The components of the candidates: they differ in one component only,
    the one that holds the counter. *)
Lemma candidate_parts :
  ∃ U al bh V,
    parts (parse_path (fstring_base d p t sfx))
    = List.filter keeps U
      ++ (if keeps (al ++ bh) then [al ++ bh] else [])
      ++ List.filter keeps V
    ∧ ∀ k, parts (parse_path (fstring_count d p t k sfx))
           = List.filter keeps U
             ++ [al ++ (underscore :: str_of_N k) ++ bh]
             ++ List.filter keeps V.
Proof.
  destruct (split_on_middle slash
              (d ++ [underscore] ++ p ++ [underscore] ++ t) sfx)
    as (U & al & bh & V & HU).
  exists U, al, bh, V. split.
  - unfold parse_path. cbn [parts].
    rewrite fstring_base_middle, (HU []) by apply not_elem_of_nil.
    rewrite List.filter_app. cbn [List.filter app].
    by destruct (keeps (al ++ bh)).
  - intros k. unfold parse_path. cbn [parts].
    rewrite fstring_count_middle, HU.
    + rewrite List.filter_app. cbn [List.filter].
      rewrite keeps_underscore; [done|].
      rewrite !elem_of_app, elem_of_cons. auto.
    + rewrite not_elem_of_cons. split; [done|apply str_of_N_no_slash].
Qed.

Lemma candidate_roots k r :
  parse_root (fstring_count d p t k sfx) = parse_root (d ++ underscore :: r).
Proof. unfold fstring_count. apply parse_root_prefix. Qed.

Lemma candidate_inj j k :
  joinpath_str out (fstring_count d p t j sfx)
  = joinpath_str out (fstring_count d p t k sfx) → j = k.
Proof.
  intros E. apply joinpath_parts_inj in E;
    [|cbn [root parse_path]; by rewrite !(candidate_roots _ [])].
  destruct candidate_parts as (U & al & bh & V & _ & HU).
  rewrite !HU in E. apply app_inv_head in E. injection E as E.
  apply app_inv_head in E. injection E as E.
  apply app_inv_tail in E. by apply str_of_N_inj.
Qed.

Lemma candidate_base_ne k :
  joinpath_str out (fstring_base d p t sfx)
  ≠ joinpath_str out (fstring_count d p t k sfx).
Proof.
  intros E. apply joinpath_parts_inj in E.
  - destruct candidate_parts as (U & al & bh & V & HB & HU).
    rewrite HB, HU in E. apply app_inv_head in E.
    destruct (keeps (al ++ bh)); cbn [app] in E.
    + injection E as E. apply app_inv_head in E.
      apply (f_equal length) in E. revert E.
      simpl. rewrite ?length_app. lia.
    + apply (f_equal length) in E. revert E. simpl. lia.
  - cbn [root parse_path]. rewrite (candidate_roots k []).
    unfold fstring_base. apply parse_root_prefix.
Qed.

End Candidates.

(** ** The filename builder *)



Example unique_filename_base :
  (_make_unique_filename renamer_abs in_a (py "20250127") (py "WIRED")
     (py "a") w_taken).1
  = Ok (mkPath [slash] [py "out"; py "20250127_WIRED_a.pdf"]).
Proof. reflexivity. Qed.

(** ** End-to-end renames with the sample collaborators *)

Example rename_wired :
  (@rename (sample chat_good posix_replace) renamer_abs in_wired w_taken).1
  = Ok (mkPath [slash]
          [py "out"; py "20250127_WIRED_Chinese-AI-App,-Rivals.pdf"]).
Proof. vm_compute. reflexivity. Qed.

Example rename_empty_fields :
  (@rename (sample chat_empty posix_replace) renamer_abs in_wired w_taken).1
  = Ok (mkPath [slash]
          [py "out"; py "no-date_WIRED_Chinese-AI-App,-Rivals.pdf"]).
Proof. vm_compute. reflexivity. Qed.

(** A stem that ends with its separator: the publisher is empty, and the
    new name has two underscores in a row. *)
Example rename_trailing_underscore :
  (@rename (sample chat_empty posix_replace) renamer_abs
     (mkPath [slash] [py "in"; py "abc_.pdf"]) w_taken).1
  = Ok (mkPath [slash] [py "out"; py "no-date__abc.pdf"]).
Proof. vm_compute. reflexivity. Qed.

(** ** Date extraction *)

(** X1. On a reply that parses to a JSON object, [_extract_publish_date]
    returns [None] when [end_date] is missing or falsy, the reformatted date
    when it is an ISO date string, [None] when it is another non-empty
    string, and raises [TypeError] when it is a truthy value of another
    type. *)
Lemma extract_publish_date_object `{Collaborators} (self : Renamer)
    (text content : str) (d : gmap str pyval) (w : world) :
  chat_invoke (_model self) (calls w)
    (PublishDatePrompt (py "YYYY-MM-DD") text) = Ok content →
  json_loads content = Some (PDict d) →
  (_extract_publish_date self text w).1 =
  match d !! py "end_date" with
  | None => Ok None
  | Some v =>
      if truthy v then
        match v with
        | PStr s =>
            Ok ((λ dt, date_strftime dt (_date_format self))
                  <$> date_fromisoformat s)
        | _ => Raise TypeError
        end
      else Ok None
  end.
Proof.
  intros Hchat Hjson.
  unfold _extract_publish_date, _invoke_model, model_invoke,
    present_and_truthy, bind, lift, logger, ret.
  rewrite Hchat. cbn. rewrite Hjson. cbn.
  destruct (d !! py "end_date") as [v|] eqn:E.
  - rewrite bool_decide_eq_true_2 by eauto. cbn.
    destruct (truthy v) eqn:Hv; cbn; [|done].
    destruct v; cbn; try done. by destruct (date_fromisoformat s).
  - rewrite bool_decide_eq_false_2 by (by intros [??]). done.
Qed.

(** C1, at the input where the code fails it. When the reply to the date
    prompt is not valid JSON, [_invoke_model] logs the decoding error and
    returns [None]; [_extract_publish_date] then tests ["end_date" in None]
    and raises [TypeError] instead of returning [None], and [rename]
    raises with it. *)
Theorem C1_malformed_json_raises `{Collaborators} (self : Renamer)
    (in_path : Path) (text content : str) (w : world) :
  chat_invoke (_model self) (calls w)
    (PublishDatePrompt (py "YYYY-MM-DD") text) = Ok content →
  json_loads content = None →
  (_extract_publish_date self text w).1 = Raise TypeError
  ∧ (first_page in_path = Ok text →
     (rename self in_path w).1 = Raise TypeError).
Proof.
  intros Hchat Hjson. split.
  - unfold _extract_publish_date, _invoke_model, model_invoke,
      present_and_truthy, bind, lift, logger, ret.
    rewrite Hchat. cbn. by rewrite Hjson.
  - intros Hpage.
    unfold rename, _extract_publish_date, _invoke_model, model_invoke,
      present_and_truthy, bind, lift, logger, ret.
    rewrite Hpage. cbn. rewrite Hchat. cbn. by rewrite Hjson.
Qed.

Lemma C1_witness :
  (@_extract_publish_date (sample chat_prose posix_replace) renamer_abs
     (py "JAN 27, 2025 12:05 PM") w_taken).1 = Raise TypeError
  ∧ (@rename (sample chat_prose posix_replace) renamer_abs in_wired
       w_taken).1 = Raise TypeError.
Proof.
  destruct (@C1_malformed_json_raises (sample chat_prose posix_replace)
              renamer_abs in_wired (py "JAN 27, 2025 12:05 PM")
              (py "Sorry, I cannot help with that.") w_taken)
    as [H1 H2]; [reflexivity | by vm_compute |].
  split; [exact H1 | apply H2; reflexivity].
Defined.

Example extract_publish_date_ok :
  (@_extract_publish_date (sample chat_good posix_replace) renamer_abs
     (py "JAN 27, 2025 12:05 PM") w_taken).1 = Ok (Some (py "20250127")).
Proof. vm_compute. reflexivity. Qed.

Example extract_publish_date_empty :
  (@_extract_publish_date (sample chat_empty posix_replace) renamer_abs
     (py "Today at 9:11 a.m. EST") w_taken).1 = Ok None.
Proof. vm_compute. reflexivity. Qed.

(** ** Model values and heuristic values *)

Lemma present_and_truthy_true key answer w w' :
  present_and_truthy key answer w = (Ok true, w') →
  ∃ v, py_getitem answer key = Ok v ∧ truthy v = true.
Proof.
  unfold present_and_truthy, bind, lift, ret.
  destruct (py_contains key answer) as [[|]|e|]; try done.
  destruct (py_getitem answer key) as [v|e|]; try done.
  intros [= Hv _]. eauto.
Qed.

Lemma bind_Ok {A B} (c : M A) (k : A → M B) w b w2 :
  bind c k w = (Ok b, w2) → ∃ a w1, c w = (Ok a, w1) ∧ k a w1 = (Ok b, w2).
Proof.
  unfold bind. destruct (c w) as [[a|e|] w1]; try done. eauto.
Qed.

(** The value one field of the reply contributes: the item when it is
    present and truthy, [None] otherwise. *)
Lemma field_value (cond : bool) key answer ok_record fail_record
    (w0 w w' : world) (v : pyval) :
  present_and_truthy key answer w0 = (Ok cond, w) →
  (if cond then
     let* x := lift (py_getitem answer key) in logger (ok_record x);; ret x
   else logger fail_record;; ret PNone) w = (Ok v, w') →
  v = PNone ∨ truthy v = true.
Proof.
  intros Hc. destruct cond.
  - apply present_and_truthy_true in Hc as (x & Hx & Hv).
    intros (x' & ? & Hl & (? & ? & _ & Hr)%bind_Ok)%bind_Ok.
    unfold lift in Hl. unfold ret in Hr.
    injection Hr as <- _. injection Hl as Hl _.
    rewrite Hx in Hl. injection Hl as <-. by right.
  - intros (? & ? & _ & Hr)%bind_Ok. unfold ret in Hr. simplify_eq. by left.
Qed.

(** Each field [_extract_publisher] returns is [None] or truthy. *)
Lemma extract_publisher_fields `{Collaborators} self filename w t p w1 :
  _extract_publisher self filename w = (Ok (t, p), w1) →
  (t = PNone ∨ truthy t = true) ∧ (p = PNone ∨ truthy p = true).
Proof.
  unfold _extract_publisher.
  intros (answer & wa & _ & H1)%bind_Ok.
  apply bind_Ok in H1 as (cp & wb & Hcp & H1).
  apply bind_Ok in H1 as (p' & wc & Hp & H1).
  apply bind_Ok in H1 as (ct & wd & Hct & H1).
  apply bind_Ok in H1 as (t' & we & Ht & H1).
  unfold ret in H1. simplify_eq. split.
  - exact (field_value _ _ _ _ _ _ _ _ _ Hct Ht).
  - exact (field_value _ _ _ _ _ _ _ _ _ Hcp Hp).
Qed.

Lemma truthy_or x y : truthy x = true → py_or x y = x.
Proof. unfold py_or. by intros ->. Qed.

Lemma truthy_not_None x : x = PNone ∨ truthy x = true → x ≠ PNone →
  is_None x = false ∧ truthy x = true.
Proof. intros [->|Hx] Hn; [done|]. split; [by destruct x|done]. Qed.

(** C9. For the fields [(title, publisher)] that [_extract_publisher]
    returns on any reply: when both are present, the fallback returns them
    and leaves the state as it is (the splitter, which logs its result, has
    not run); otherwise the splitter runs on the stem, and its title and
    publisher replace exactly the fields that are [None]. *)
Theorem C9_fallback_fills_missing `{Collaborators} (self : Renamer)
    (filename stem_ : str) (w w1 : world) (title publisher : pyval) :
  _extract_publisher self filename w = (Ok (title, publisher), w1) →
  (title ≠ PNone → publisher ≠ PNone →
   fallback title publisher stem_ w1 = (Ok (title, publisher), w1))
  ∧ ∃ h_title h_publisher w2,
      _split_publisher_and_title stem_ w1 = (Ok (h_title, h_publisher), w2)
      ∧ (title = PNone → publisher ≠ PNone →
         fallback title publisher stem_ w1
         = (Ok (PStr h_title, publisher), w2))
      ∧ (title ≠ PNone → publisher = PNone →
         fallback title publisher stem_ w1
         = (Ok (title, PStr h_publisher), w2))
      ∧ (title = PNone → publisher = PNone →
         fallback title publisher stem_ w1
         = (Ok (PStr h_title, PStr h_publisher), w2)).
Proof.
  intros [Ht Hp]%extract_publisher_fields. split.
  - intros Htn Hpn. unfold fallback.
    destruct (truthy_not_None _ Ht Htn) as [-> _].
    by destruct (truthy_not_None _ Hp Hpn) as [-> _].
  - assert (∃ h_title h_publisher w2,
      _split_publisher_and_title stem_ w1 = (Ok (h_title, h_publisher), w2))
      as (h_title & h_publisher & w2 & Hs).
    { unfold _split_publisher_and_title, rsplit1.
      destruct (rpartition underscore stem_) as [[??]|]; cbn; [by eauto|].
      destruct (rpartition hyphen stem_) as [[??]|]; cbn; by eauto. }
    exists h_title, h_publisher, w2. split; [done|].
    unfold fallback. repeat split.
    + intros -> Hpn. destruct (truthy_not_None _ Hp Hpn) as [_ Hpt].
      cbn [is_None orb]. unfold bind. rewrite Hs.
      cbn. by rewrite (truthy_or _ _ Hpt).
    + intros Htn ->. destruct (truthy_not_None _ Ht Htn) as [-> Htt].
      cbn [is_None orb]. unfold bind. rewrite Hs.
      cbn. by rewrite (truthy_or _ _ Htt).
    + intros -> ->. cbn [is_None orb]. unfold bind. by rewrite Hs.
Qed.

Lemma C9_witness :
  let E := sample chat_good posix_replace in
  let r := @_extract_publisher E renamer_abs (name in_wired) w_taken in
  r.1 = Ok (PStr (py "Chinese AI App,  Rivals"), PStr (py "WIRED"))
  ∧ fallback (PStr (py "Chinese AI App,  Rivals")) (PStr (py "WIRED"))
      (stem in_wired) r.2
    = (Ok (PStr (py "Chinese AI App,  Rivals"), PStr (py "WIRED")), r.2).
Proof.
  intros E r. split; [by vm_compute|].
  apply (@C9_fallback_fills_missing E renamer_abs (name in_wired)
           (stem in_wired) w_taken r.2); [by vm_compute|done|done].
Defined.

Example fallback_fills_publisher :
  let E := sample chat_title_only posix_replace in
  (let* (title, publisher) := @_extract_publisher E renamer_abs (name in_wired) in
   fallback title publisher (stem in_wired)) w_taken
  = (Ok (PStr (py "Chinese AI App"), PStr (py "WIRED")),
     mkWorld (listing w_taken)
       [ InfoInvokedModel (chat_title_only (PublisherPrompt []));
         ErrorPublisherFailed;
         InfoTitle (PStr (py "Chinese AI App"));
         InfoSplitting (py "WIRED") (py "Chinese AI App, Rivals") ] 1).
Proof. by vm_compute. Qed.

(** ** Effects on the directory listing *)

Lemma ret_keeps {A} (a : A) : keeps_listing (ret a).
Proof. done. Qed.

Lemma raise_keeps {A} e : keeps_listing (@raise A e).
Proof. done. Qed.

Lemma lift_keeps {A} (o : outcome A) : keeps_listing (lift o).
Proof. done. Qed.

Lemma logger_keeps r : keeps_listing (logger r).
Proof. done. Qed.

Lemma bind_keeps {A B} (c : M A) (k : A → M B) :
  keeps_listing c → (∀ a, keeps_listing (k a)) → keeps_listing (bind c k).
Proof.
  intros Hc Hk w. unfold bind. specialize (Hc w).
  destruct (c w) as [[a|e|] w1]; simpl in *; [|done|done].
  by rewrite Hk.
Qed.

Lemma model_invoke_keeps `{Collaborators} self p :
  keeps_listing (model_invoke self p).
Proof. done. Qed.

Lemma make_unique_filename_keeps self in_path d p t :
  keeps_listing (_make_unique_filename self in_path d p t).
Proof.
  intros w. unfold _make_unique_filename. by destruct (unique_loop _ _ _ _ _).
Qed.

Create HintDb keeps.
#[local] Hint Resolve ret_keeps raise_keeps lift_keeps logger_keeps
  model_invoke_keeps make_unique_filename_keeps : keeps.

(** Goes through a computation built from the monad operations. *)
Ltac keeps_listing_steps :=
  repeat match goal with
    | |- keeps_listing (bind _ _) => apply bind_keeps; [|intros ?]
    | |- keeps_listing (match ?x with _ => _ end) => destruct x
    | |- keeps_listing _ => by eauto with keeps
    end.

Lemma rename_keeps `{Collaborators} self in_path :
  keeps_listing (rename self in_path).
Proof.
  unfold rename, _extract_publish_date, _extract_publisher, _invoke_model,
    present_and_truthy, fallback, _split_publisher_and_title.
  keeps_listing_steps.
Qed.

(** ** The batch runner: failures of single files *)

(** C2, as the code has it. An exception raised by [rename] for one file
    (while loading the PDF, calling the model, extracting, or building the
    name) is logged, [process] returns normally, the directory listing is
    as before the file, and the loop goes on with the files that remain.
    In particular a PDF the loader cannot read is logged and skipped. The
    move is outside the handler: what [replace] raises leaves the loop. *)
Theorem C2_failed_rename_is_skipped `{Collaborators} (renamer : Renamer)
    (output_dir : Path) (total count : nat) (file : Path)
    (rest : list Path) (w : world) :
  (∀ e w1,
     rename renamer file (add_log (InfoProcessing count total) w)
       = (Raise e, w1) →
     process renamer output_dir total count file w
       = (Ok (), add_log (LogException e) w1)
     ∧ listing (add_log (LogException e) w1) = listing w
     ∧ for_each renamer output_dir total count (file :: rest) w
       = for_each renamer output_dir total (S count) rest
           (add_log (LogException e) w1))
  ∧ (∀ e, first_page file = Raise e →
     process renamer output_dir total count file w
       = (Ok (), add_log (LogException e)
                   (add_log (InfoStartingRename file)
                      (add_log (InfoProcessing count total) w))))
  ∧ (∀ e renamed w1,
     rename renamer file (add_log (InfoProcessing count total) w)
       = (Ok renamed, w1) →
     os_replace (listing w1) file (joinpath output_dir renamed) = Raise e →
     for_each renamer output_dir total count (file :: rest) w
       = (Raise e, w1)).
Proof.
  split; [|split].
  - intros e w1 Hr.
    assert (Hp : process renamer output_dir total count file w
                 = (Ok (), add_log (LogException e) w1)).
    { unfold process, bind, try_except_else, logger at 1. by rewrite Hr. }
    split; [done|]. split.
    + pose proof (rename_keeps renamer file
                    (add_log (InfoProcessing count total) w)) as Hk.
      rewrite Hr in Hk. done.
    + cbn [for_each]. unfold bind at 1. by rewrite Hp.
  - intros e He.
    unfold process, bind, try_except_else, logger at 1, rename, bind,
      lift, logger at 1.
    by rewrite He.
  - intros e renamed w1 Hr He. cbn [for_each].
    unfold bind at 1, process, bind, try_except_else, logger at 1, replace.
    by rewrite Hr, He.
Qed.

Lemma C2_witness :
  let E := sample chat_prose posix_replace in
  @for_each E renamer_abs out_abs 2 1 [in_a; in_b] w_batch
  = @for_each E renamer_abs out_abs 2 2 [in_b]
      (mkWorld (listing w_batch)
         [ InfoProcessing 1 2; InfoStartingRename in_a;
           InfoInvokedModel (py "Sorry, I cannot help with that.");
           LogException JSONDecodeError; LogException TypeError ] 1).
Proof.
  intros E.
  destruct (@C2_failed_rename_is_skipped E renamer_abs out_abs 2 1 in_a
              [in_b] w_batch) as (Hskip & _ & _).
  apply (Hskip TypeError
           (mkWorld (listing w_batch)
              [ InfoProcessing 1 2; InfoStartingRename in_a;
                InfoInvokedModel (py "Sorry, I cannot help with that.");
                LogException JSONDecodeError ] 1)).
  by vm_compute.
Defined.

(** C2 as stated fails for the move. The output directory cannot be
    written: the first file is renamed, [replace] raises in the [else]
    branch, nothing is logged for it, [run] itself raises, and the second
    file is never processed. *)
Lemma C2_counterexample :
  let E := sample chat_empty readonly_replace in
  let r := @run E in_dir out_abs (py "llama3.2") (py "%Y%m%d") w_batch in
  r.1 = Raise PermissionError
  ∧ (LogException PermissionError ∉ log r.2)
  ∧ (InfoProcessing 2 2 ∉ log r.2)
  ∧ log r.2 =
    [ InfoFound 2; InfoProcessing 1 2; InfoStartingRename in_a;
      InfoInvokedModel (json_text [(py "end_date", [])]);
      ErrorDateFailed;
      InfoInvokedModel (json_text [(py "publisher", []); (py "title", [])]);
      ErrorPublisherFailed; ErrorTitleFailed;
      InfoSplitting (py "no-publisher") (py "a");
      InfoFinishingRename (py "a.pdf")
        (mkPath [slash] [py "out"; py "no-date_no-publisher_a.pdf"]) ].
Proof.
  intros E r. assert (Hlog : log r.2 = _) by (vm_compute; reflexivity).
  split; [by vm_compute|].
  split; [|split; [|exact Hlog]]; rewrite Hlog; intros Hin;
    repeat (apply elem_of_cons in Hin as [Hin|Hin]; [discriminate|]);
    by apply elem_of_nil in Hin.
Qed.

(** ** The batch runner: exit codes *)

(** C3, as the code has it. The input directory is looked at first: when it
    does not exist, or holds no [*.pdf] entry, [run] returns 0 and changes
    nothing, whether the output directory exists or not. When the input
    directory holds a [*.pdf] entry and the output directory does not
    exist, [run] returns 1, having logged the error and done nothing else:
    no model call, no change to the listing. *)
Theorem C3_exit_codes `{Collaborators} (input_dir output_dir : Path)
    (model date_format : str) (w : world) :
  (input_dir ∉ listing w →
   run input_dir output_dir model date_format w = (Ok 0%Z, w))
  ∧ (input_dir ∈ listing w → (glob_pdf input_dir w).1 = Ok [] →
     run input_dir output_dir model date_format w = (Ok 0%Z, w))
  ∧ (input_dir ∈ listing w → (glob_pdf input_dir w).1 ≠ Ok [] →
     output_dir ∉ listing w →
     run input_dir output_dir model date_format w
     = (Ok 1%Z, add_log ErrorNoOutputDir w)).
Proof.
  unfold run, bind, path_exists. cbn [fst snd negb].
  split; [|split].
  - intros Hin. by rewrite bool_decide_eq_false_2.
  - intros Hin Hglob. rewrite bool_decide_eq_true_2 by done. cbn.
    unfold glob_pdf in *. cbn in Hglob. injection Hglob as ->. done.
  - intros Hin Hglob Hout. rewrite bool_decide_eq_true_2 by done. cbn.
    unfold glob_pdf in *. cbn in Hglob.
    rewrite bool_decide_eq_false_2 by congruence.
    by rewrite bool_decide_eq_false_2.
Qed.

Lemma C3_witness :
  @run (sample chat_good posix_replace) in_dir out_abs (py "llama3.2")
    (py "%Y%m%d") (mkWorld [in_dir; in_a] [] 0)
  = (Ok 1%Z, mkWorld [in_dir; in_a] [ErrorNoOutputDir] 0).
Proof.
  apply (@C3_exit_codes (sample chat_good posix_replace) in_dir out_abs
           (py "llama3.2") (py "%Y%m%d") (mkWorld [in_dir; in_a] [] 0));
    [by_evaluation | by vm_compute | by_evaluation].
Defined.

(** C3 as stated fails: with neither directory in existence the output
    directory does not exist, and the exit code is 0. *)
Lemma C3_counterexample :
  (out_abs ∉ listing w0)
  ∧ (@run (sample chat_good posix_replace) in_dir out_abs (py "llama3.2")
       (py "%Y%m%d") w0).1 = Ok 0%Z
  ∧ (@run (sample chat_good posix_replace) in_dir out_abs (py "llama3.2")
       (py "%Y%m%d") w0).1 ≠ Ok 1%Z.
Proof. split; [by_evaluation|]. split; by vm_compute. Qed.

(** ** The batch runner: where the file is moved *)

(** Joining a rooted output directory with a path built from it gives that
    path back; joining a relative one repeats its components. *)
Lemma joinpath_rooted out q :
  str_truthy (root out) = true → joinpath out (joinpath out q) = joinpath out q.
Proof.
  intros Hout. unfold joinpath.
  destruct (str_truthy (root q)) eqn:Hq; cbn [root]; by rewrite ?Hq, ?Hout.
Qed.

Lemma joinpath_relative out q :
  root out = [] → root q = [] →
  joinpath out (joinpath out q)
  = mkPath [] (parts out ++ parts out ++ parts q).
Proof. unfold joinpath. by intros -> ->. Qed.

(** With a relative output directory that has a component, the target of
    the move is never the relative path built from it. *)
Lemma move_target_relative (output_dir : Path) (s : str) :
  root output_dir = [] → parts output_dir ≠ [] → parse_root s = [] →
  joinpath output_dir (joinpath_str output_dir s) ≠ joinpath_str output_dir s.
Proof.
  intros Hroot Hparts Hs. unfold joinpath_str.
  rewrite joinpath_relative by done.
  unfold joinpath. cbn [root parse_path]. rewrite Hs. cbn [str_truthy].
  intros [= _ E]. apply app_inv_head in E.
  apply (f_equal length) in E. rewrite length_app in E.
  destruct (parts output_dir); [done|]. simpl in E. lia.
Qed.

(** With a rooted output directory the target of the move is the path
    [rename] returned. *)
Lemma move_target_rooted (output_dir : Path) (s : str) :
  str_truthy (root output_dir) = true →
  joinpath output_dir (joinpath_str output_dir s) = joinpath_str output_dir s.
Proof. apply joinpath_rooted. Qed.

(** C4, at the input where the code fails it. With the relative output
    directory [out], the builder checks and returns [out/<name>], which
    does not exist; the move goes to [out / (out/<name>)], which is
    [out/out/<name>]: another path, one that exists, and whose file the
    move replaces. *)
Theorem C4_relative_output_dir_overwrites :
  let E := sample chat_empty posix_replace in
  let renamer := mkRenamer (py "llama3.2") (py "%Y%m%d") out_rel in
  let candidate := mkPath [] [py "out"; new_name] in
  let target := mkPath [] [py "out"; py "out"; new_name] in
  (@rename E renamer in_rel_a w_rel).1 = Ok candidate
  ∧ (candidate ∉ listing w_rel)
  ∧ joinpath out_rel candidate = target
  ∧ target ≠ candidate
  ∧ target ∈ listing w_rel
  ∧ (@process E renamer out_rel 1 1 in_rel_a w_rel).1 = Ok ()
  ∧ listing (@process E renamer out_rel 1 1 in_rel_a w_rel).2
    = [in_rel; out_rel; mkPath [] [py "out"; py "out"]; target]
  ∧ (@run E in_rel out_rel (py "llama3.2") (py "%Y%m%d") w_rel).1 = Ok 0%Z
  ∧ listing (@run E in_rel out_rel (py "llama3.2") (py "%Y%m%d") w_rel).2
    = [in_rel; out_rel; mkPath [] [py "out"; py "out"]; target].
Proof.
  intros E renamer candidate target.
  split; [by vm_compute|]. split; [by_evaluation|].
  split; [by vm_compute|]. split; [by vm_compute|].
  split; [by_evaluation|]. split; [by vm_compute|].
  split; [by vm_compute|]. split; by vm_compute.
Qed.

(** * Further properties of the module *)

(** ** The heuristic splitter never fails *)

Lemma ends_ws_cons c s : s ≠ [] → ends_ws (c :: s) = ends_ws s.
Proof.
  intros Hs. unfold ends_ws. rewrite reverse_cons.
  destruct (reverse s) as [|x xs] eqn:E; [|done].
  apply (f_equal reverse) in E. rewrite reverse_involutive in E. done.
Qed.

Lemma ends_ws_lstrip s : ends_ws s = false → ends_ws (lstrip s) = false.
Proof.
  induction s as [|c s IH]; [done|].
  simpl. destruct (isspace c) eqn:Hc; [|done].
  destruct s as [|c' s]; [done|].
  rewrite ends_ws_cons by done. apply IH.
Qed.

Lemma strip_trimmed s : trimmed (strip s) = true.
Proof.
  unfold trimmed, strip. rewrite starts_ws_lstrip, ends_ws_lstrip; [done|].
  unfold ends_ws, rstrip. rewrite reverse_involutive. apply starts_ws_lstrip.
Qed.

(** X5. [_split_publisher_and_title] never raises: for every stem the
    unpacking finds exactly two parts. It returns, logs one record and
    changes nothing else, and both the title and the publisher it returns
    neither begin nor end with whitespace. *)
Theorem X5_split_total_and_trimmed (stem_ : str) (w : world) :
  ∃ title publisher,
    _split_publisher_and_title stem_ w
    = (Ok (title, publisher), add_log (InfoSplitting publisher title) w)
    ∧ trimmed title = true ∧ trimmed publisher = true.
Proof.
  unfold _split_publisher_and_title, rsplit1.
  destruct (rpartition underscore stem_) as [[a b]|]; cbn.
  - exists (strip a), (strip b). by rewrite !strip_trimmed.
  - destruct (rpartition hyphen stem_) as [[a b]|]; cbn.
    + exists (strip a), (strip b). by rewrite !strip_trimmed.
    + exists (strip stem_), (py "no-publisher"). by rewrite strip_trimmed.
Qed.

(** ** Kebab-casing of blank strings *)

Lemma split_ws_nil s : split_ws s = [] ↔ forallb isspace s = true.
Proof.
  induction s as [|c s IH]; [done|].
  simpl. destruct (isspace c) eqn:Hc; [done|]. simpl.
  split; [|done].
  destruct (starts_ws s); [done|]. by destruct (split_ws s).
Qed.

Lemma join_nil sep l :
  Forall (λ t, str_truthy t = true) l → join sep l = [] → l = [].
Proof.
  destruct 1 as [|t ts Ht _]; [done|].
  destruct t as [|c t]; [done|]. simpl. by destruct ts.
Qed.

(** X8. Kebab-casing gives the empty string exactly on the strings made of
    whitespace only (the empty string among them): a title or publisher
    that is blank but not empty passes the truth test of [rename] and
    becomes an empty segment of the new name. *)
Theorem X8_kebab_empty_iff_blank (s : str) :
  kebab s = [] ↔ forallb isspace s = true.
Proof.
  rewrite kebab_join, <- split_ws_nil. split.
  - apply join_nil. eapply Forall_impl; [apply split_ws_tokens|].
    by intros ? [? _].
  - by intros ->.
Qed.

(** ** Replies that are JSON but not what the prompt asked for *)

(** X2. When the reply to the date prompt is valid JSON but not an object,
    [_extract_publish_date] never returns a date. It returns [None] when
    the reply is a list without the element ["end_date"] or a string
    without that substring; in every other case (a number, a boolean,
    [null], a list or a string that does contain it) it raises
    [TypeError]. *)
Theorem X2_date_reply_not_object `{Collaborators} (self : Renamer)
    (text content : str) (answer : pyval) (w : world) :
  chat_invoke (_model self) (calls w)
    (PublishDatePrompt (py "YYYY-MM-DD") text) = Ok content →
  json_loads content = Some answer →
  (∀ d, answer ≠ PDict d) →
  (_extract_publish_date self text w).1 =
  match py_contains (py "end_date") answer with
  | Ok false => Ok None
  | _ => Raise TypeError
  end.
Proof.
  intros Hchat Hjson Hobj.
  unfold _extract_publish_date, _invoke_model, model_invoke,
    present_and_truthy, bind, lift, logger, ret.
  rewrite Hchat. cbn. rewrite Hjson. cbn.
  destruct answer as [| | | |s|l|d]; cbn; try done.
  - by destruct (str_contains (py "end_date") s).
  - by destruct (existsb _ l).
  - by destruct (Hobj d).
Qed.

(** X3. When the reply to the publisher prompt parses to an object,
    [_extract_publisher] returns, for the title and for the publisher, the
    value of the field when it is present and truthy and [None] otherwise
    (a missing key and an empty string are treated alike); it has asked the
    model once and left the directory listing alone. *)
Theorem X3_publisher_reply_object `{Collaborators} (self : Renamer)
    (filename content : str) (d : gmap str pyval) (w : world) :
  chat_invoke (_model self) (calls w) (PublisherPrompt filename)
    = Ok content →
  json_loads content = Some (PDict d) →
  (_extract_publisher self filename w).1
    = Ok (field_of d (py "title"), field_of d (py "publisher"))
  ∧ calls (_extract_publisher self filename w).2 = S (calls w)
  ∧ listing (_extract_publisher self filename w).2 = listing w.
Proof.
  intros Hchat Hjson.
  unfold _extract_publisher, _invoke_model, model_invoke,
    present_and_truthy, bind, lift, logger, ret, field_of.
  rewrite Hchat. cbn. rewrite Hjson. cbn.
  destruct (d !! py "publisher") as [p|] eqn:Ep;
    [rewrite bool_decide_eq_true_2 by eauto
    |rewrite bool_decide_eq_false_2 by (by intros [??])]; cbn;
  (destruct (d !! py "title") as [t|] eqn:Et;
    [rewrite ?(bool_decide_eq_true_2 (is_Some (Some t))) by eauto
    |rewrite ?(bool_decide_eq_false_2 (is_Some None)) by (by intros [??])]);
  cbn; try destruct (truthy p); cbn;
  rewrite ?(bool_decide_eq_true_2 (is_Some (Some t))) by eauto;
  rewrite ?(bool_decide_eq_false_2 (is_Some None)) by (by intros [??]);
  cbn; try destruct (truthy t); done.
Qed.

(** X4. The heuristic splitter is not a fallback for malformed JSON. When
    the page loads and the date is extracted but the reply to the publisher
    prompt is not valid JSON, [rename] raises [TypeError] from the test
    ["publisher" in None]: the last records of the log are the reply and
    the decoding error, and no split was made. *)
Theorem X4_publisher_reply_not_json `{Collaborators} (self : Renamer)
    (in_path : Path) (page content : str) (publish_date : option str)
    (w w2 : world) :
  first_page in_path = Ok page →
  _extract_publish_date self page (add_log (InfoStartingRename in_path) w)
    = (Ok publish_date, w2) →
  chat_invoke (_model self) (calls w2) (PublisherPrompt (name in_path))
    = Ok content →
  json_loads content = None →
  (rename self in_path w).1 = Raise TypeError
  ∧ log (rename self in_path w).2
    = log w2 ++ [InfoInvokedModel content; LogException JSONDecodeError]
  ∧ listing (rename self in_path w).2 = listing w2.
Proof.
  intros Hpage Hdate Hchat Hjson.
  assert (rename self in_path w
          = (Raise TypeError,
             add_log (LogException JSONDecodeError)
               (add_log (InfoInvokedModel content)
                  (mkWorld (listing w2) (log w2) (S (calls w2)))))) as ->.
  { unfold rename. unfold bind at 1, logger at 1.
    unfold bind at 1, lift. rewrite Hpage.
    unfold bind at 1. rewrite Hdate.
    unfold _extract_publisher, _invoke_model, model_invoke,
      present_and_truthy, bind, lift, logger, ret.
    rewrite Hchat. cbn. by rewrite Hjson. }
  cbn. by rewrite <- (assoc_L (++)).
Qed.

Lemma X4_witness :
  (@rename (sample chat_date_only posix_replace) renamer_abs in_wired
     w_taken).1 = Raise TypeError.
Proof.
  pose (E := sample chat_date_only posix_replace).
  apply (@X4_publisher_reply_not_json E renamer_abs in_wired
           (py "JAN 27, 2025 12:05 PM")
           (py "Sorry, I cannot help with that.")
           (Some (py "20250127")) w_taken
           (@_extract_publish_date E renamer_abs
              (py "JAN 27, 2025 12:05 PM")
              (add_log (InfoStartingRename in_wired) w_taken)).2);
    by vm_compute.
Defined.

Lemma X2_witness :
  let E := {| chat_invoke := λ _ _ _, Ok (py "[2025, 1, 27]");
              first_page := λ _, Ok [];
              json_loads := λ _, Some (PList [PInt 2025; PInt 1; PInt 27]);
              date_fromisoformat := sample_fromisoformat;
              date_strftime := sample_strftime;
              os_replace := posix_replace |} in
  (@_extract_publish_date E renamer_abs [] w0).1 = Ok None.
Proof.
  intros E.
  apply (@X2_date_reply_not_object E renamer_abs [] (py "[2025, 1, 27]")
           (PList [PInt 2025; PInt 1; PInt 27]) w0); done.
Defined.

Lemma X3_witness :
  (@_extract_publisher (sample chat_title_only posix_replace) renamer_abs
     (name in_wired) w_taken).1
  = Ok (PStr (py "Chinese AI App"), PNone).
Proof.
  refine (proj1 (@X3_publisher_reply_object
                   (sample chat_title_only posix_replace)
                   renamer_abs (name in_wired)
                   (chat_title_only (PublisherPrompt (name in_wired)))
                   (list_to_map [(py "publisher", PStr []);
                                 (py "title", PStr (py "Chinese AI App"))])
                   w_taken _ _)); by vm_compute.
Defined.

Lemma X1_witness :
  (@_extract_publish_date (sample chat_good posix_replace) renamer_abs
     (py "JAN 27, 2025 12:05 PM") w_taken).1 = Ok (Some (py "20250127")).
Proof.
  refine (@extract_publish_date_object (sample chat_good posix_replace)
            renamer_abs (py "JAN 27, 2025 12:05 PM")
            (chat_good (PublishDatePrompt [] []))
            (list_to_map [(py "end_date", PStr (py "2025-01-27"));
                          (py "reasoning", PStr (py "date line"))])
            w_taken _ _); by vm_compute.
Defined.

(** ** The filename builder: which counter is chosen *)

(** What the loop returns: the candidate it was given, or one of the
    counted candidates, after the ones before it were all found to exist. *)
Lemma unique_loop_shape existing next fuel candidate count c :
  unique_loop fuel existing next candidate count = Some c →
  c = candidate
  ∨ (candidate ∈ existing
     ∧ ∃ i, (S i < fuel)%nat ∧ c = next (count + N.of_nat i)
            ∧ ∀ j, (j < i)%nat → next (count + N.of_nat j) ∈ existing).
Proof.
  revert candidate count.
  induction fuel as [|fuel IH]; intros candidate count; simpl; [done|].
  case_bool_decide as Hin; [|intros [= <-]; by left].
  intros Hloop. right. split; [done|].
  assert (fuel ≠ O) by (intros ->; done).
  destruct (IH _ _ Hloop) as [->|(Hnext & i & Hi & -> & Hbefore)].
  - exists O. split; [lia|]. split; [by rewrite N.add_0_r|]. lia.
  - exists (S i). split; [lia|]. split; [f_equal; lia|].
    intros [|j] Hj; [by rewrite N.add_0_r|].
    replace (count + N.of_nat (S j)) with (count + 1 + N.of_nat j) by lia.
    apply Hbefore. lia.
Qed.

Lemma make_unique_filename_loop (self : Renamer) (in_path : Path)
    (d p t : str) (w : world) :
  ∃ c,
    unique_loop (S (length (listing w))) (listing w)
      (λ n, joinpath_str (_out_path self)
              (fstring_count d p t n (suffix in_path)))
      (joinpath_str (_out_path self) (fstring_base d p t (suffix in_path)))
      1 = Some c.
Proof.
  apply (unique_loop_finishes _ _
           (λ j k, candidate_inj (_out_path self) d p t (suffix in_path) j k)
           _ (listing w)); [lia| |done|done].
  intros k _. apply candidate_base_ne.
Qed.

(** The builder returns, leaves the state alone, and its result is a path
    outside the listing, built from the output directory. *)
Lemma make_unique_filename_returns (self : Renamer) (in_path : Path)
    (d p t : str) (w : world) :
  ∃ c s,
    _make_unique_filename self in_path d p t w = (Ok c, w)
    ∧ (c ∉ listing w)
    ∧ c = joinpath_str (_out_path self) s
    ∧ (s = fstring_base d p t (suffix in_path)
       ∨ ∃ n, s = fstring_count d p t n (suffix in_path)).
Proof.
  destruct (make_unique_filename_loop self in_path d p t w) as [c Hc].
  unfold _make_unique_filename. rewrite Hc.
  destruct (unique_loop_shape _ _ _ _ _ _ Hc) as [->|(_ & i & _ & -> & _)].
  - eexists _, _. split; [done|]. split; [by eapply unique_loop_fresh|].
    split; [done|]. by left.
  - eexists _, _. split; [done|]. split; [by eapply unique_loop_fresh|].
    split; [done|]. right. by eexists.
Qed.



(** ** How often the model is asked *)

Lemma ret_calls {A} (a : A) : calls_within 0 (ret a).
Proof. intros w. simpl. lia. Qed.

Lemma raise_calls {A} e : calls_within 0 (@raise A e).
Proof. intros w. simpl. lia. Qed.

Lemma lift_calls {A} (o : outcome A) : calls_within 0 (lift o).
Proof. intros w. simpl. lia. Qed.

Lemma logger_calls r : calls_within 0 (logger r).
Proof. intros w. simpl. lia. Qed.

Lemma bind_calls n m {A B} (c : M A) (k : A → M B) :
  calls_within n c → (∀ a, calls_within m (k a)) →
  calls_within (n + m) (bind c k).
Proof.
  intros Hc Hk w. unfold bind. specialize (Hc w).
  destruct (c w) as [[a|e|] w1]; simpl in *; [|lia|lia].
  specialize (Hk a w1). lia.
Qed.

Lemma make_unique_filename_calls self in_path d p t :
  calls_within 0 (_make_unique_filename self in_path d p t).
Proof.
  intros w. unfold _make_unique_filename.
  destruct (unique_loop _ _ _ _ _); simpl; lia.
Qed.

Create HintDb calls.
#[local] Hint Resolve ret_calls raise_calls lift_calls logger_calls
  make_unique_filename_calls : calls.

(** Goes through a computation that does not ask the model. *)
Ltac no_calls_steps :=
  repeat match goal with
    | |- calls_within 0 (bind _ _) => apply (bind_calls 0 0); [|intros ?]
    | |- calls_within 0 (match ?x with _ => _ end) => destruct x
    | |- calls_within 0 _ => by eauto with calls
    end.

Lemma invoke_model_calls `{Collaborators} self p w :
  calls (_invoke_model self p w).2 = S (calls w).
Proof.
  unfold _invoke_model, model_invoke, bind, logger, ret.
  destruct (chat_invoke _ _ _) as [content| |]; [|done|done].
  cbn. by destruct (json_loads content).
Qed.

(** A computation that asks once, followed by one that does not ask. *)
Lemma bind_calls_once {A B} (c : M A) (k : A → M B) w :
  (∀ w, calls (c w).2 = S (calls w)) → (∀ a, calls_within 0 (k a)) →
  calls (bind c k w).2 = S (calls w).
Proof.
  intros Hc Hk. unfold bind. specialize (Hc w).
  destruct (c w) as [[a|e|] w1]; simpl in *; [|done|done].
  specialize (Hk a w1). lia.
Qed.

Lemma extract_publish_date_calls `{Collaborators} self text w :
  calls (_extract_publish_date self text w).2 = S (calls w).
Proof.
  apply bind_calls_once; [apply invoke_model_calls|].
  intros answer. unfold present_and_truthy. no_calls_steps.
Qed.

Lemma extract_publisher_calls `{Collaborators} self filename w :
  calls (_extract_publisher self filename w).2 = S (calls w).
Proof.
  apply bind_calls_once; [apply invoke_model_calls|].
  intros answer. unfold present_and_truthy. no_calls_steps.
Qed.

Lemma fallback_calls title publisher stem_ :
  calls_within 0 (fallback title publisher stem_).
Proof. unfold fallback, _split_publisher_and_title. no_calls_steps. Qed.

Lemma once_within {A} (c : M A) :
  (∀ w, calls (c w).2 = S (calls w)) → calls_within 1 c.
Proof. intros Hc w. rewrite Hc. lia. Qed.

Lemma rename_calls `{Collaborators} self in_path :
  calls_within 2 (rename self in_path).
Proof.
  unfold rename.
  apply (bind_calls 0 2); [apply logger_calls|intros _].
  apply (bind_calls 0 2); [apply lift_calls|intros page].
  apply (bind_calls 1 1);
    [apply once_within, extract_publish_date_calls|intros pd].
  apply (bind_calls 1 0);
    [apply once_within, extract_publisher_calls|intros [title publisher]].
  pose proof fallback_calls. no_calls_steps.
Qed.

(** ** What a successful rename returns *)

Lemma lift_Ok {A} (o : outcome A) w a w' :
  lift o w = (Ok a, w') → o = Ok a ∧ w' = w.
Proof. unfold lift. by intros [= -> ->]. Qed.

Lemma logger_Ok r w u w' : logger r w = (Ok u, w') → w' = add_log r w.
Proof. unfold logger. by intros [= _ <-]. Qed.

Lemma ret_Ok {A} (a b : A) w w' : ret a w = (Ok b, w') → a = b ∧ w' = w.
Proof. unfold ret. by intros [= -> ->]. Qed.

(** A date that [_extract_publish_date] returns was formatted by
    [strftime] with the format the renamer was given. *)
Lemma extract_publish_date_Some `{Collaborators} self text w s w' :
  _extract_publish_date self text w = (Ok (Some s), w') →
  ∃ dt, s = date_strftime dt (_date_format self).
Proof.
  unfold _extract_publish_date.
  intros (answer & wa & _ & H1)%bind_Ok.
  apply bind_Ok in H1 as ([|] & wb & _ & H1).
  - apply bind_Ok in H1 as (v & wc & _ & H1).
    apply bind_Ok in H1 as ([dt|] & wd & _ & H1).
    + apply bind_Ok in H1 as (? & ? & _ & [[= <-] _]%ret_Ok). by exists dt.
    + by apply bind_Ok in H1 as (? & ? & _ & [[=] _]%ret_Ok).
  - by apply bind_Ok in H1 as (? & ? & _ & [[=] _]%ret_Ok).
Qed.

Lemma kebab_case_Ok v s : kebab_case v = Ok s → no_ws s = true.
Proof. destruct v; try done. intros [= <-]. apply kebab_no_ws. Qed.

Lemma fallback_state title publisher stem_ w r w' :
  fallback title publisher stem_ w = (Ok r, w') →
  listing w' = listing w ∧ calls w' = calls w.
Proof.
  intros Hf. split.
  - assert (keeps_listing (fallback title publisher stem_)) as Hk.
    { unfold fallback, _split_publisher_and_title. keeps_listing_steps. }
    specialize (Hk w). by rewrite Hf in Hk.
  - pose proof (fallback_calls title publisher stem_ w) as Hc.
    rewrite Hf in Hc. simpl in Hc. lia.
Qed.

(** The steps a successful [rename] went through. *)
Lemma rename_Ok `{Collaborators} self in_path w renamed w1 :
  rename self in_path w = (Ok renamed, w1) →
  ∃ publish_date publisher title w',
    (publish_date = py "no-date"
     ∨ ∃ dt, publish_date = date_strftime dt (_date_format self))
    ∧ no_ws publisher = true ∧ no_ws title = true
    ∧ _make_unique_filename self in_path publish_date publisher title w'
      = (Ok renamed, w')
    ∧ listing w' = listing w
    ∧ calls w' = (calls w + 2)%nat
    ∧ w1 = add_log (InfoFinishingRename (name in_path) renamed) w'.
Proof.
  unfold rename.
  intros (? & wa & ->%logger_Ok & H1)%bind_Ok.
  apply bind_Ok in H1 as (page & wb & [_ ->]%lift_Ok & H1).
  apply bind_Ok in H1 as (pd & wc & Hdate & H1).
  apply bind_Ok in H1 as ([t0 p0] & wd & Hpub & H1).
  apply bind_Ok in H1 as ([t1 p1] & we & Hfb & H1).
  apply bind_Ok in H1 as (title & wf & [Ht ->]%lift_Ok & H1).
  apply bind_Ok in H1 as (publisher & wg & [Hp ->]%lift_Ok & H1).
  apply bind_Ok in H1 as (renamed' & wh & Hb & H1).
  apply bind_Ok in H1 as (? & wi & ->%logger_Ok & [<- ->]%ret_Ok).
  destruct (make_unique_filename_returns self in_path
              (default (py "no-date") pd) publisher title we)
    as (c & s & Hc & _).
  rewrite Hc in Hb. injection Hb as <- <-.
  exists (default (py "no-date") pd), publisher, title, we.
  split.
  { destruct pd as [s'|]; [|by left].
    right. by apply extract_publish_date_Some in Hdate. }
  split; [by eapply kebab_case_Ok|]. split; [by eapply kebab_case_Ok|].
  split; [done|].
  destruct (fallback_state _ _ _ _ _ _ Hfb) as [Hl Hcalls].
  pose proof (extract_publisher_calls self (name in_path) wc) as Hc2.
  pose proof (extract_publish_date_calls self page
                (add_log (InfoStartingRename in_path) w)) as Hc1.
  rewrite Hpub in Hc2. rewrite Hdate in Hc1. simpl in *.
  split; [|split; [lia|done]].
  rewrite Hl.
  assert (keeps_listing (_extract_publisher self (name in_path))) as Hk2.
  { unfold _extract_publisher, _invoke_model, present_and_truthy.
    keeps_listing_steps. }
  assert (keeps_listing (_extract_publish_date self page)) as Hk1.
  { unfold _extract_publish_date, _invoke_model, present_and_truthy.
    keeps_listing_steps. }
  specialize (Hk2 wc). rewrite Hpub in Hk2.
  specialize (Hk1 (add_log (InfoStartingRename in_path) w)).
  rewrite Hdate in Hk1. simpl in *. congruence.
Qed.

(** X7. [rename] only computes a name: whatever happens, it leaves the
    directory listing as it is. It asks the model at most twice; exactly
    twice when it returns a name, and not at all when the first page cannot
    be loaded. *)
Theorem X7_rename_effects `{Collaborators} (self : Renamer) (in_path : Path)
    (w : world) :
  listing (rename self in_path w).2 = listing w
  ∧ (calls w ≤ calls (rename self in_path w).2 ≤ calls w + 2)%nat
  ∧ (∀ renamed, (rename self in_path w).1 = Ok renamed →
       calls (rename self in_path w).2 = (calls w + 2)%nat)
  ∧ (∀ e, first_page in_path = Raise e →
       calls (rename self in_path w).2 = calls w).
Proof.
  split; [apply rename_keeps|]. split; [apply rename_calls|]. split.
  - intros renamed Hr.
    destruct (rename self in_path w) as [o w1] eqn:E. simpl in Hr. subst o.
    apply rename_Ok in E as (? & ? & ? & w' & _ & _ & _ & _ & _ & Hc & ->).
    done.
  - intros e He. unfold rename, bind, logger, lift. by rewrite He.
Qed.

Lemma X7_witness :
  calls (@rename (sample chat_good posix_replace) renamer_abs in_wired
           w_taken).2 = 2%nat.
Proof.
  destruct (@X7_rename_effects (sample chat_good posix_replace) renamer_abs
              in_wired w_taken) as (_ & _ & Hok & _).
  apply (Hok (mkPath [slash]
                [py "out"; py "20250127_WIRED_Chinese-AI-App,-Rivals.pdf"])).
  by vm_compute.
Defined.

(** X9. Every name [rename] returns has the same shape: the output
    directory joined with [<date>_<publisher>_<title><suffix>] or
    [<date>_<publisher>_<title>_<n><suffix>], where the date is ["no-date"]
    or a date formatted with the renamer's format, the publisher and the
    title contain no whitespace, and the suffix is the one of the source
    file; and that path does not exist when [rename] is called. *)
Theorem X9_rename_name_shape `{Collaborators} (self : Renamer)
    (in_path : Path) (w w1 : world) (renamed : Path) :
  rename self in_path w = (Ok renamed, w1) →
  ∃ publish_date publisher title s,
    renamed = joinpath_str (_out_path self) s
    ∧ (s = fstring_base publish_date publisher title (suffix in_path)
       ∨ ∃ n, s = fstring_count publish_date publisher title n
                    (suffix in_path))
    ∧ (publish_date = py "no-date"
       ∨ ∃ dt, publish_date = date_strftime dt (_date_format self))
    ∧ no_ws publisher = true ∧ no_ws title = true
    ∧ (renamed ∉ listing w).
Proof.
  intros (pd & publisher & title & w' & Hpd & Hp & Ht & Hb & Hl & _ & _)
    %rename_Ok.
  destruct (make_unique_filename_returns self in_path pd publisher title w')
    as (c & s & Hc & Hfresh & -> & Hs).
  rewrite Hc in Hb. injection Hb as <-.
  exists pd, publisher, title, s. by rewrite <- Hl.
Qed.

Lemma X9_witness :
  ∃ publish_date publisher title s,
    mkPath [slash] [py "out"; py "20250127_WIRED_Chinese-AI-App,-Rivals.pdf"]
    = joinpath_str out_abs s
    ∧ (s = fstring_base publish_date publisher title (suffix in_wired)
       ∨ ∃ n, s = fstring_count publish_date publisher title n
                    (suffix in_wired))
    ∧ (publish_date = py "no-date"
       ∨ ∃ dt, publish_date = sample_strftime dt (py "%Y%m%d"))
    ∧ no_ws publisher = true ∧ no_ws title = true
    ∧ (mkPath [slash]
         [py "out"; py "20250127_WIRED_Chinese-AI-App,-Rivals.pdf"]
       ∉ listing w_taken).
Proof.
  pose (E := sample chat_good posix_replace).
  apply (@X9_rename_name_shape E renamer_abs in_wired w_taken
           (@rename E renamer_abs in_wired w_taken).2).
  by vm_compute.
Defined.

(** X10. With a rooted (absolute) output directory, as [run] passes it to
    the renamer it creates, a file whose name was computed is moved to
    exactly the path [rename] returned, and that path does not exist at the
    time of the move: the move replaces nothing. *)
Theorem X10_rooted_output_dir_move_is_safe `{Collaborators}
    (model date_format : str) (output_dir file : Path) (total count : nat)
    (w w1 : world) (renamed : Path) :
  str_truthy (root output_dir) = true →
  rename (mkRenamer model date_format output_dir) file
    (add_log (InfoProcessing count total) w) = (Ok renamed, w1) →
  process (mkRenamer model date_format output_dir) output_dir total count
    file w = replace file renamed w1
  ∧ (renamed ∉ listing w1).
Proof.
  intros Hroot Hr.
  assert (process (mkRenamer model date_format output_dir) output_dir total
            count file w
          = replace file (joinpath output_dir renamed) w1) as ->.
  { unfold process, bind, try_except_else, logger at 1. by rewrite Hr. }
  apply rename_Ok in Hr as (pd & p & t & w' & _ & _ & _ & Hb & _ & _ & ->).
  destruct (make_unique_filename_returns
              (mkRenamer model date_format output_dir) file pd p t w')
    as (c & s & Hc & Hfresh & -> & _).
  rewrite Hc in Hb. injection Hb as <-. cbn [_out_path].
  by rewrite move_target_rooted.
Qed.

Lemma X10_witness :
  let E := sample chat_good posix_replace in
  let renamed :=
    mkPath [slash]
      [py "out"; py "20250127_WIRED_Chinese-AI-App,-Rivals.pdf"] in
  let w1 := (@rename E renamer_abs in_a
               (add_log (InfoProcessing 1 2) w_batch)).2 in
  @process E renamer_abs out_abs 2 1 in_a w_batch = @replace E in_a renamed w1
  ∧ (renamed ∉ listing w1).
Proof.
  intros E renamed w1.
  apply (@X10_rooted_output_dir_move_is_safe E (py "llama3.2") (py "%Y%m%d")
           out_abs in_a 2 1 w_batch w1 renamed); by vm_compute.
Defined.

(** ** The batch runner: model calls *)

Lemma replace_calls `{Collaborators} file target :
  calls_within 0 (replace file target).
Proof.
  intros w. unfold replace. destruct (os_replace _ _ _); simpl; lia.
Qed.

Lemma try_calls n m {A B} (body : M A) (handler : exn → M B)
    (orelse : A → M B) :
  calls_within n body → (∀ e, calls_within m (handler e)) →
  (∀ a, calls_within m (orelse a)) →
  calls_within (n + m) (try_except_else body handler orelse).
Proof.
  intros Hb Hh Ho w. unfold try_except_else. specialize (Hb w).
  destruct (body w) as [[a|e|] w1]; simpl in *; [| |lia].
  - specialize (Ho a w1). lia.
  - specialize (Hh e w1). lia.
Qed.

Lemma process_calls `{Collaborators} renamer output_dir total count file :
  calls_within 2 (process renamer output_dir total count file).
Proof.
  unfold process.
  apply (bind_calls 0 2); [apply logger_calls|intros _].
  apply (try_calls 2 0); [apply rename_calls| |].
  - intros e. apply logger_calls.
  - intros renamed. apply replace_calls.
Qed.

Lemma for_each_calls `{Collaborators} renamer output_dir total count files :
  calls_within (2 * length files)
    (for_each renamer output_dir total count files).
Proof.
  revert count. induction files as [|file rest IH]; intros count.
  - apply ret_calls.
  - cbn [for_each length].
    replace (2 * S (length rest))%nat with (2 + 2 * length rest)%nat by lia.
    apply bind_calls; [apply process_calls|]. intros _. apply IH.
Qed.

(** X12. A run asks the model at most twice for every [*.pdf] entry of the
    input directory, whatever the replies are and however the run ends. *)
Theorem X12_run_model_calls `{Collaborators} (input_dir output_dir : Path)
    (model date_format : str) (files : list Path) (w : world) :
  (glob_pdf input_dir w).1 = Ok files →
  (calls w ≤ calls (run input_dir output_dir model date_format w).2
   ≤ calls w + 2 * length files)%nat.
Proof.
  intros [= Hglob]. unfold run, bind, path_exists, logger.
  cbn [fst snd negb].
  destruct (bool_decide (input_dir ∈ listing w)); cbn; [|lia].
  rewrite Hglob.
  destruct (bool_decide (files = [])); cbn; [lia|].
  destruct (bool_decide (output_dir ∈ listing w)); cbn; [|lia].
  pose proof (for_each_calls (mkRenamer model date_format output_dir)
                output_dir (length files) 1 files
                (add_log (InfoFound (length files)) w)) as Hf.
  destruct (for_each _ _ _ _ _ _) as [[[]|e|] w1]; simpl in *; lia.
Qed.

Lemma X12_witness :
  (calls (@run (sample chat_prose posix_replace) in_dir out_abs
            (py "llama3.2") (py "%Y%m%d") w_batch).2 ≤ 4)%nat.
Proof.
  apply (@X12_run_model_calls (sample chat_prose posix_replace) in_dir
           out_abs (py "llama3.2") (py "%Y%m%d") [in_a; in_b] w_batch).
  by vm_compute.
Defined.

(** ** The batch runner: when it finishes *)

Section NoHang.
Context `{Collaborators}.
Hypothesis chat_returns : ∀ m n p, chat_invoke m n p ≠ Diverge.
Hypothesis page_returns : ∀ p, first_page p ≠ Diverge.

Lemma ret_total {A} (a : A) : never_diverges (ret a).
Proof using Type. done. Qed.

Lemma raise_total {A} e : never_diverges (@raise A e).
Proof using Type. done. Qed.

Lemma logger_total r : never_diverges (logger r).
Proof using Type. done. Qed.

Lemma lift_total {A} (o : outcome A) : o ≠ Diverge → never_diverges (lift o).
Proof using Type. by intros Ho w. Qed.

Lemma bind_total {A B} (c : M A) (k : A → M B) :
  never_diverges c → (∀ a, never_diverges (k a)) → never_diverges (bind c k).
Proof using Type.
  intros Hc Hk w. unfold bind. specialize (Hc w).
  destruct (c w) as [[a|e|] w1]; simpl in *; [apply Hk|done|done].
Qed.

Lemma model_invoke_total self p : never_diverges (model_invoke self p).
Proof using chat_returns. intros w. apply chat_returns. Qed.

Lemma make_unique_filename_total self in_path d p t :
  never_diverges (_make_unique_filename self in_path d p t).
Proof using Type.
  intros w.
  destruct (make_unique_filename_returns self in_path d p t w)
    as (c & s & -> & _). done.
Qed.

Lemma py_contains_total key v : py_contains key v ≠ Diverge.
Proof using Type. by destruct v. Qed.

Lemma py_getitem_total v key : py_getitem v key ≠ Diverge.
Proof using Type. destruct v; try done. simpl. by destruct (d !! key). Qed.

Lemma fromisoformat_total v : fromisoformat v ≠ Diverge.
Proof using Type. by destruct v. Qed.

Lemma kebab_case_total v : kebab_case v ≠ Diverge.
Proof using Type. by destruct v. Qed.

(** Goes through a computation built from the monad operations. *)
Ltac never_diverges_steps :=
  repeat match goal with
    | |- never_diverges (bind _ _) => apply bind_total; [|intros ?]
    | |- never_diverges (lift _) =>
        apply lift_total;
        first [ apply py_contains_total | apply py_getitem_total
              | apply fromisoformat_total | apply kebab_case_total
              | apply page_returns ]
    | |- never_diverges (match ?x with _ => _ end) => destruct x
    | |- never_diverges _ =>
        first [ apply ret_total | apply raise_total | apply logger_total
              | apply model_invoke_total
              | apply make_unique_filename_total ]
    end.

Lemma rename_total self in_path : never_diverges (rename self in_path).
Proof using chat_returns page_returns.
  unfold rename, _extract_publish_date, _extract_publisher, _invoke_model,
    present_and_truthy, fallback, _split_publisher_and_title.
  never_diverges_steps.
Qed.

Hypothesis moves_succeed : ∀ l src dst, ∃ l', os_replace l src dst = Ok l'.

Lemma process_returns renamer output_dir total count file w :
  ∃ w', process renamer output_dir total count file w = (Ok (), w').
Proof using chat_returns page_returns moves_succeed.
  unfold process, bind, logger at 1, try_except_else.
  pose proof (rename_total renamer file
                (add_log (InfoProcessing count total) w)) as Hr.
  destruct (rename renamer file _) as [[renamed|e|] w1]; simpl in Hr;
    [| by eexists | done].
  unfold replace.
  destruct (moves_succeed (listing w1) file (joinpath output_dir renamed))
    as [l' ->]. by eexists.
Qed.

Lemma for_each_returns renamer output_dir total count files w :
  ∃ w', for_each renamer output_dir total count files w = (Ok (), w').
Proof using chat_returns page_returns moves_succeed.
  revert count w. induction files as [|file rest IH]; intros count w.
  - by eexists.
  - cbn [for_each]. unfold bind.
    destruct (process_returns renamer output_dir total count file w)
      as [w1 ->].
    apply IH.
Qed.

(** X11. The exit code says nothing about the files. When no collaborator
    hangs and every move succeeds, a run that finds [*.pdf] entries and an
    output directory returns 0 whatever the model replied and however many
    renames failed, and its last log record reports the number of files
    found as the number renamed. *)
Theorem X11_run_returns_zero (input_dir output_dir : Path)
    (model date_format : str) (files : list Path) (w : world) :
  input_dir ∈ listing w → output_dir ∈ listing w →
  (glob_pdf input_dir w).1 = Ok files → files ≠ [] →
  ∃ w', run input_dir output_dir model date_format w = (Ok 0%Z, w')
        ∧ last (log w') = Some (InfoRenamed (length files)).
Proof using chat_returns page_returns moves_succeed.
  intros Hin Hout [= Hglob] Hfiles. unfold run, bind, path_exists.
  cbn [fst snd negb].
  rewrite (bool_decide_eq_true_2 _ Hin). cbn. rewrite Hglob.
  rewrite (bool_decide_eq_false_2 _ Hfiles). cbn.
  rewrite (bool_decide_eq_true_2 _ Hout). cbn.
  destruct (for_each_returns (mkRenamer model date_format output_dir)
              output_dir (length files) 1 files
              (add_log (InfoFound (length files)) w)) as [w1 ->].
  eexists. split; [done|]. cbn. apply last_snoc.
Qed.

End NoHang.

Lemma X11_witness :
  ∃ w', @run (sample chat_prose unhindered_replace) in_dir out_abs
          (py "llama3.2") (py "%Y%m%d") w_batch = (Ok 0%Z, w')
        ∧ last (log w') = Some (InfoRenamed 2).
Proof.
  apply (@X11_run_returns_zero (sample chat_prose unhindered_replace))
    with (files := [in_a; in_b]);
    [done | done | intros; by eexists | by_evaluation | by_evaluation
    | by vm_compute | done].
Defined.

(** ** Replies with fields that are not strings *)

Lemma split_returns stem_ w :
  ∃ title publisher w',
    _split_publisher_and_title stem_ w = (Ok (title, publisher), w').
Proof.
  unfold _split_publisher_and_title, rsplit1.
  destruct (rpartition underscore stem_) as [[??]|]; cbn; [by eauto|].
  destruct (rpartition hyphen stem_) as [[??]|]; cbn; by eauto.
Qed.

(** X13. The fields of the reply are not checked to be strings. When
    [_extract_publisher] returns a title that is neither [None] nor a
    string (a number, [true], a list or an object), [rename] raises
    [AttributeError] at [title.split()], whether or not the heuristic
    splitter ran for the publisher. *)
Theorem X13_title_not_a_string `{Collaborators} (self : Renamer)
    (in_path : Path) (page : str) (publish_date : option str)
    (title publisher : pyval) (w w2 w3 : world) :
  first_page in_path = Ok page →
  _extract_publish_date self page (add_log (InfoStartingRename in_path) w)
    = (Ok publish_date, w2) →
  _extract_publisher self (name in_path) w2 = (Ok (title, publisher), w3) →
  title ≠ PNone → (∀ s, title ≠ PStr s) →
  (rename self in_path w).1 = Raise AttributeError.
Proof.
  intros Hpage Hdate Hpub Hnone Hstr.
  destruct (extract_publisher_fields _ _ _ _ _ _ Hpub) as [Ht _].
  destruct (truthy_not_None _ Ht Hnone) as [Hn Htruthy].
  assert (∃ p' w4, fallback title publisher (stem in_path) w3
                   = (Ok (title, p'), w4)) as (p' & w4 & Hfb).
  { unfold fallback. rewrite Hn. cbn [orb].
    destruct (is_None publisher); [|by eexists _, _].
    destruct (split_returns (stem in_path) w3)
      as (h_title & h_publisher & w4 & Hs).
    unfold bind. rewrite Hs. cbn. rewrite (truthy_or _ _ Htruthy).
    by eexists _, _. }
  unfold rename. unfold bind at 1, logger at 1.
  unfold bind at 1, lift. rewrite Hpage.
  unfold bind at 1. rewrite Hdate.
  unfold bind at 1. rewrite Hpub.
  unfold bind at 1. rewrite Hfb.
  unfold bind at 1. destruct title; try done. by destruct (Hstr s).
Qed.

Lemma X13_witness :
  let answer :=
    PDict (list_to_map [(py "end_date", PStr []);
                        (py "publisher", PStr (py "WIRED"));
                        (py "title", PInt 2025)]) in
  (@rename (constant_reply answer) renamer_abs in_wired w_taken).1
  = Raise AttributeError.
Proof.
  intros answer. pose (E := constant_reply answer).
  pose (w2 := (@_extract_publish_date E renamer_abs
                 (py "JAN 27, 2025 12:05 PM")
                 (add_log (InfoStartingRename in_wired) w_taken)).2).
  apply (@X13_title_not_a_string E renamer_abs in_wired
           (py "JAN 27, 2025 12:05 PM") None (PInt 2025)
           (PStr (py "WIRED")) w_taken w2
           (@_extract_publisher E renamer_abs (name in_wired) w2).2);
    try done; by vm_compute.
Defined.

(** ** The batch runner: a relative output directory *)

(** X14. With a relative output directory of at least one component, a
    relative path returned by [rename] already begins with the components
    of the output directory, and [run] puts them in front once more: the
    file is moved to [output_dir/output_dir/...], never to the path that
    [rename] returned and checked. *)
Theorem X14_relative_output_dir_target `{Collaborators}
    (model date_format : str) (output_dir file : Path) (total count : nat)
    (w w1 : world) (renamed : Path) :
  root output_dir = [] → parts output_dir ≠ [] →
  rename (mkRenamer model date_format output_dir) file
    (add_log (InfoProcessing count total) w) = (Ok renamed, w1) →
  root renamed = [] →
  ∃ rest,
    parts renamed = parts output_dir ++ rest
    ∧ process (mkRenamer model date_format output_dir) output_dir total
        count file w
      = replace file
          (mkPath [] (parts output_dir ++ parts output_dir ++ rest)) w1
    ∧ mkPath [] (parts output_dir ++ parts output_dir ++ rest) ≠ renamed.
Proof.
  intros Hroot Hparts Hr Hrel.
  assert (process (mkRenamer model date_format output_dir) output_dir total
            count file w
          = replace file (joinpath output_dir renamed) w1) as ->.
  { unfold process, bind, try_except_else, logger at 1. by rewrite Hr. }
  apply rename_Ok in Hr as (pd & p & t & w' & _ & _ & _ & Hb & _ & _ & _).
  destruct (make_unique_filename_returns
              (mkRenamer model date_format output_dir) file pd p t w')
    as (c & s & Hc & _ & -> & _).
  rewrite Hc in Hb. injection Hb as <-. cbn [_out_path] in *.
  unfold joinpath_str, joinpath in Hrel |- *.
  destruct (str_truthy (root (parse_path s))) eqn:Hs.
  - rewrite Hrel in Hs. done.
  - exists (parts (parse_path s)). cbn [root parts]. rewrite Hroot.
    cbn [str_truthy]. split; [done|]. split; [done|].
    intros [= E]. apply app_inv_head in E.
    apply (f_equal length) in E. rewrite length_app in E.
    destruct (parts output_dir); [done|]. simpl in E. lia.
Qed.

Lemma X14_witness :
  let E := sample chat_empty posix_replace in
  let renamer := mkRenamer (py "llama3.2") (py "%Y%m%d") out_rel in
  ∃ rest,
    parts (mkPath [] [py "out"; new_name]) = parts out_rel ++ rest
    ∧ @process E renamer out_rel 1 1 in_rel_a w_rel
      = @replace E in_rel_a
          (mkPath [] (parts out_rel ++ parts out_rel ++ rest))
          (@rename E renamer in_rel_a
             (add_log (InfoProcessing 1 1) w_rel)).2
    ∧ mkPath [] (parts out_rel ++ parts out_rel ++ rest)
      ≠ mkPath [] [py "out"; new_name].
Proof.
  intros E renamer.
  apply (@X14_relative_output_dir_target E (py "llama3.2") (py "%Y%m%d")
           out_rel in_rel_a 1 1 w_rel); try done; by vm_compute.
Defined.

(** ** The heuristic splitter: hyphens *)



Example split_new_york_times :
  (_split_publisher_and_title
     (py "Steel - and Aluminum - The New York Times") w0).1
  = Ok (py "Steel - and Aluminum", py "The New York Times").
Proof. reflexivity. Qed.
